(** * Checkpoint conversion and inspection scripts

    A shallow embedding of [Models/conversion_script.py] and
    [Models/inspect_model.py].  Both scripts are straight-line drivers of
    TensorFlow and coremltools.  A script is embedded as a tree of the
    operations it performs, in source order; the libraries and the operating
    system answer those operations through two handlers, about which nothing
    is assumed.  The properties below are therefore statements about what the
    scripts ask for, in which order, and what they do with the answers. *)

From Stdlib Require Import String Ascii List ZArith Bool Lia.
Import ListNotations.
Local Open Scope string_scope.
Local Open Scope list_scope.

(** ** Python values *)

(** A tensor shape as the configuration writes it: a tuple of integers, or
    [None]. *)
Definition shape := option (list Z).

(** A Python exception instance, of a class derived from [Exception]: its
    class and the text of its message. *)
Record exn := Exn { exn_class : string; exn_message : string }.

Definition ValueError (msg : string) : exn := Exn "ValueError" msg.
Definition AttributeError (msg : string) : exn := Exn "AttributeError" msg.

(** [s.split(sep)] for a one-character separator. *)
Fixpoint split (sep : ascii) (s : string) : list string :=
  match s with
  | EmptyString => [EmptyString]
  | String c s' =>
      if Ascii.eqb c sep then EmptyString :: split sep s'
      else match split sep s' with
           | h :: t => String c h :: t
           | [] => [String c EmptyString]
           end
  end.

(** [name.split(':')[0]].  [split] never returns the empty list, so the
    index is always in range. *)
Definition strip_port (name : string) : string :=
  nth 0 (split ":" name) EmptyString.

Fixpoint endswith_sep (s : string) : bool :=
  match s with
  | EmptyString => false
  | String c EmptyString => Ascii.eqb c "/"
  | String _ s' => endswith_sep s'
  end.

Definition startswith_sep (s : string) : bool :=
  match s with
  | String c _ => Ascii.eqb c "/"
  | EmptyString => false
  end.

(** [os.path.join(a, b)] on a POSIX system. *)
Definition path_join (a b : string) : string :=
  if startswith_sep b then b
  else if (String.eqb a "" || endswith_sep a)%bool then a ++ b
  else a ++ "/" ++ b.

(** Truth value of [latest_ckpt], which is [None] or a [str]. *)
Definition truthy (v : option string) : bool :=
  match v with
  | None => false
  | Some s => negb (String.eqb s "")
  end.

(** ** Library objects

    The scripts never look inside these; they only hand them back to the
    library that made them.  Each is a reference. *)

Variant graph := GraphRef (id : N).
Variant session := SessionRef (id : N).
Variant tensor := TensorRef (id : N).
Variant saver := SaverRef (id : N).
Variant graph_def := GraphDefRef (id : N).
Variant gfile := GFileRef (id : N).
Variant mlmodel := MLModelRef (id : N).

Definition bytes := list Byte.byte.

Variant dtype := tf_bool.
Variant target := macOS12.

(** The object [ct.TensorType(name=..., shape=...)] makes, as the name and
    the shape it was made from; [shape] defaults to [None]. *)
Record TensorType := { tt_name : string; tt_shape : shape }.

(** One entry of [get_spec().description.input] / [.output]. *)
Variant feature_type := FeatureTypeRef (id : N).
Record feature := { spec_name : string; spec_type : feature_type }.
Record model_spec := { description_input : list feature;
                       description_output : list feature }.

(** What [graph.get_operations()] exposes of an operation and of the
    tensors in [op.outputs]. *)
Record tensor_info := { t_name : string;
                         t_shape : option (list (option Z));
                         t_dtype_name : string }.
Record operation := { op_name : string; op_type : string;
                      op_outputs : list tensor_info }.

(** ** Console lines

    A printed line is kept as the pieces of its f-string, so that no
    assumption on how Python renders a list, a shape or an exception is
    needed. *)

Variant piece :=
| Lit (s : string)              (* literal text *)
| Str (s : string)              (* an interpolated [str] *)
| Names (l : list string)       (* an interpolated list of [str] *)
| Dims (d : option (list (option Z)))   (* an interpolated TensorShape *)
| Proto (t : feature_type)      (* an interpolated protobuf message *)
| Err (e : exn).                (* an interpolated exception *)

Definition line := list piece.

(** ** Operations of a script *)

(** Context managers left at the end of a [with] block. *)
Variant ctx :=
| CtxDefault (g : graph)
| CtxSession (s : session)
| CtxFile (f : gfile).

(** Operations that always complete: writing to the console, testing a
    path, leaving a [with] block. *)
Inductive effect : Type -> Type :=
| Print (l : line) : effect unit
| PrintExc (e : exn) : effect unit            (* traceback.print_exc() *)
| PathExists (p : string) : effect bool       (* os.path.exists *)
| Leave (c : ctx) : effect unit.              (* __exit__ of a with block *)

(** Calls into TensorFlow and coremltools; each may raise. *)
Inductive call : Type -> Type :=
| DisableEagerExecution : call unit
| Graph : call graph
| AsDefault (g : graph) : call unit
| Session (g : graph) : call session
| Constant (value : bool) (dt : dtype) (name : string) : call tensor
| ImportMetaGraph (path : string) (clear_devices : bool)
                  (input_map : option (list (string * tensor)))
    : call (option saver)     (* [None] for a meta graph without variables *)
| LatestCheckpoint (dir : string) : call (option string)
| Restore (sv : saver) (sess : session) (ckpt : string) : call unit
| SessGraphDef (sess : session) : call graph_def
| ConvertVariablesToConstants (sess : session) (gd : graph_def)
                              (output_node_names : list string) : call graph_def
| GFile (path : string) (mode : string) : call gfile
| SerializeToString (gd : graph_def) : call bytes
| Write (f : gfile) (data : bytes) : call unit
| MakeTensorType (name : string) (shp : shape) : call unit   (* the constructor
    [ct.TensorType]: it checks its arguments *)
| CtConvert (model : graph_def) (source : string) (outputs : list TensorType)
            (inputs : list TensorType) (minimum_deployment_target : target)
    : call mlmodel
| Save (m : mlmodel) (path : string) : call unit
| GetSpec (m : mlmodel) : call model_spec
| GetOperations (g : graph) : call (list operation).

(** A script: a tree of operations.  A call node receives either the value
    the library returned or the exception it raised. *)
Inductive prog (R : Type) : Type :=
| Ret (r : R)
| Raise (e : exn)
| Do {X : Type} (a : effect X) (k : X -> prog R)
| Call {X : Type} (c : call X) (k : exn + X -> prog R).

Arguments Ret {R} r.
Arguments Raise {R} e.
Arguments Do {R X} a k.
Arguments Call {R X} c k.

Fixpoint bind {A B} (p : prog A) (f : A -> prog B) : prog B :=
  match p with
  | Ret r => f r
  | Raise e => Raise e
  | Do a k => Do a (fun x => bind (k x) f)
  | Call c k => Call c (fun r => bind (k r) f)
  end.

Declare Scope prog_scope.
Delimit Scope prog_scope with prog.
Notation "x <- p ;; q" := (bind p (fun x => q))
  (at level 61, p at next level, right associativity) : prog_scope.
Notation "p ;; q" := (bind p (fun _ => q))
  (at level 61, right associativity) : prog_scope.
Local Open Scope prog_scope.

(** A library call outside any handler: the exception, if any, is raised
    on. *)
Definition invoke {X} (c : call X) : prog X :=
  Call c (fun r => match r with inl e => Raise e | inr x => Ret x end).

Definition perform {X} (a : effect X) : prog X := Do a Ret.

Definition print (l : line) : prog unit := perform (Print l).

(** [try: p  finally: a]. *)
Fixpoint finally_ {R} (p : prog R) (a : effect unit) : prog R :=
  match p with
  | Ret r => Do a (fun _ => Ret r)
  | Raise e => Do a (fun _ => Raise e)
  | Do b k => Do b (fun x => finally_ (k x) a)
  | Call c k => Call c (fun r => finally_ (k r) a)
  end.

(** [with enter as x: body].  The context managers used here never
    suppress an exception. *)
Definition with_ {X R} (enter : prog X) (cm : X -> ctx) (body : X -> prog R)
  : prog R :=
  x <- enter ;; finally_ (body x) (Leave (cm x)).

(** [try: p  except Exception as e: h e]. *)
Fixpoint try_except {R} (p : prog R) (h : exn -> prog R) : prog R :=
  match p with
  | Ret r => Ret r
  | Raise e => h e
  | Do b k => Do b (fun x => try_except (k x) h)
  | Call c k => Call c (fun r => try_except (k r) h)
  end.

(** [for x in l: body x]. *)
Fixpoint for_ {A} (l : list A) (body : A -> prog unit) : prog unit :=
  match l with
  | [] => Ret tt
  | x :: l' => body x ;; for_ l' body
  end.

(** [[f x for x in l]]. *)
Fixpoint comprehension {A B} (f : A -> prog B) (l : list A) : prog (list B) :=
  match l with
  | [] => Ret []
  | x :: l' => y <- f x ;; ys <- comprehension f l' ;; Ret (y :: ys)
  end.

(** [saver.restore(sess, ckpt)].  [import_meta_graph] returns [None] when
    the meta graph holds no variable; looking up [restore] on it raises. *)
Definition restore (saver : option saver) (sess : session) (ckpt : string)
  : prog unit :=
  match saver with
  | Some sv => invoke (Restore sv sess ckpt)
  | None => Raise (AttributeError "'NoneType' object has no attribute 'restore'")
  end.

(** [ct.TensorType(name=name, shape=shp)]: the constructor may raise; the
    object it returns holds the name and the shape given. *)
Definition tensor_type (name : string) (shp : shape) : prog TensorType :=
  invoke (MakeTensorType name shp) ;;
  Ret {| tt_name := name; tt_shape := shp |}.

(** ** Running a script *)

(** What was observed of one operation. *)
Inductive entry : Type :=
| Did {X : Type} (a : effect X) (x : X)
| Called {X : Type} (c : call X) (r : exn + X).

Record result (W R : Type) := Result
  { outcome : exn + R; trace : list entry; final : W }.
Arguments Result {W R}.
Arguments outcome {W R}.
Arguments trace {W R}.
Arguments final {W R}.

Definition logged {W R} (en : entry) (r : result W R) : result W R :=
  Result (outcome r) (en :: trace r) (final r).

Section Run.
Context {W : Type}.
(** The operating system and the interpreter. *)
Variable sys : forall X, effect X -> W -> X * W.
(** TensorFlow and coremltools. *)
Variable fw : forall X, call X -> W -> (exn + X) * W.

Fixpoint run {R} (p : prog R) (w : W) : result W R :=
  match p with
  | Ret r => Result (inr r) [] w
  | Raise e => Result (inl e) [] w
  | Do a k =>
      let xw := sys _ a w in
      logged (Did a (fst xw)) (run (k (fst xw)) (snd xw))
  | Call c k =>
      let rw := fw _ c w in
      logged (Called c (fst rw)) (run (k (fst rw)) (snd rw))
  end.
End Run.

(** ** Reading a trace *)

(** The lines printed, in order. *)
Definition printed (en : entry) : list line :=
  match en with
  | Did a _ => match a with Print l => [l] | _ => [] end
  | Called _ _ => []
  end.

Definition stdout (tr : list entry) : list line := flat_map printed tr.

(** The exception a call raised, if it raised one. *)
Definition failure_of (en : entry) : option exn :=
  match en with
  | Called _ (inl e) => Some e
  | _ => None
  end.

Definition failures (tr : list entry) : list exn :=
  flat_map (fun en => match failure_of en with Some e => [e] | None => [] end) tr.

Definition is_call (en : entry) : bool :=
  match en with Called _ _ => true | Did _ _ => false end.

Definition calls (tr : list entry) : list entry := filter is_call tr.

(** ** conversion_script.py *)

Module Converter.

(** [[name.split(':')[0] for name in output_tensor_names]] *)
Definition output_node_names_for_freezing (output_tensor_names : list string)
  : list string :=
  map strip_port output_tensor_names.

(** The loop that fills [coreml_inputs]: entries are visited in the
    order of [input_tensor_map_shapes.items()], the control tensor is
    skipped with [continue], for every other entry a [ct.TensorType] is made
    and appended.  The list grows through the iterations; a constructor that
    raises ends the loop and the function. *)
Fixpoint coreml_inputs_loop (items : list (string * shape))
         (phase_train_tensor_name : string) (coreml_inputs : list TensorType)
  : prog (list TensorType) :=
  match items with
  | [] => Ret coreml_inputs
  | (name_with_port, shp) :: rest =>
      if String.eqb name_with_port phase_train_tensor_name
      then coreml_inputs_loop rest phase_train_tensor_name coreml_inputs
      else
        let actual_input_name_for_coreml := strip_port name_with_port in
        t <- tensor_type actual_input_name_for_coreml shp ;;
        coreml_inputs_loop rest phase_train_tensor_name (coreml_inputs ++ [t])
  end.

(** What the loop leaves in [coreml_inputs] when no constructor raises. *)
Definition coreml_inputs (input_tensor_map_shapes : list (string * shape))
           (phase_train_tensor_name : string) : list TensorType :=
  fold_left
    (fun acc (item : string * shape) =>
       let (name_with_port, shp) := item in
       if String.eqb name_with_port phase_train_tensor_name then acc
       else
         let actual_input_name_for_coreml := strip_port name_with_port in
         acc ++ [{| tt_name := actual_input_name_for_coreml; tt_shape := shp |}])
    input_tensor_map_shapes [].

(** [[ct.TensorType(name=name) for name in output_tensor_names]] *)
Definition coreml_outputs_comprehension (output_tensor_names : list string)
  : prog (list TensorType) :=
  comprehension (fun name => tensor_type name None) output_tensor_names.

(** What the comprehension yields when no constructor raises. *)
Definition coreml_outputs (output_tensor_names : list string) : list TensorType :=
  map (fun name => {| tt_name := name; tt_shape := None |}) output_tensor_names.

Definition newline : string := String "010" EmptyString.

Definition convert_tf_checkpoint_to_coreml
           (checkpoint_dir meta_filename output_mlmodel_path : string)
           (input_tensor_map_shapes : list (string * shape))
           (output_tensor_names : list string)
           (phase_train_tensor_name : string) : prog unit :=
  invoke DisableEagerExecution ;;
  graph <- invoke Graph ;;
  with_ (invoke (AsDefault graph)) (fun _ => CtxDefault graph) (fun _ =>
  with_ (invoke (Session graph)) CtxSession (fun sess =>
    (* 1. the constant False tensor *)
    phase_train_const <- invoke (Constant false tf_bool "phase_train_const_val") ;;
    (* 2. load the meta graph, mapping phase_train to the constant *)
    print [Lit "Loading meta graph: "; Str (path_join checkpoint_dir meta_filename)] ;;
    saver <- invoke (ImportMetaGraph (path_join checkpoint_dir meta_filename) true
                       (Some [(phase_train_tensor_name, phase_train_const)])) ;;
    (* 3. restore weights *)
    latest_ckpt <- invoke (LatestCheckpoint checkpoint_dir) ;;
    if negb (truthy latest_ckpt)
    then Raise (ValueError ("No checkpoint found in directory: " ++ checkpoint_dir))
    else
      (* [latest_ckpt] is a non-empty [str] from here on *)
      let ckpt := match latest_ckpt with Some s => s | None => "" end in
      print [Lit "Restoring weights from: "; Str ckpt] ;;
      restore saver sess ckpt ;;
      print [Lit "Weights restored successfully."] ;;
      (* 4. freeze the graph *)
      let names := output_node_names_for_freezing output_tensor_names in
      print [Lit "Freezing graph with output nodes: "; Names names] ;;
      gd <- invoke (SessGraphDef sess) ;;
      frozen_graph_def <- invoke (ConvertVariablesToConstants sess gd names) ;;
      let frozen_pb_path := path_join checkpoint_dir "frozen_model.pb" in
      with_ (invoke (GFile frozen_pb_path "wb")) CtxFile (fun f =>
        data <- invoke (SerializeToString frozen_graph_def) ;;
        invoke (Write f data)) ;;
      print [Lit "Frozen graph saved to: "; Str frozen_pb_path] ;;
      (* 5. convert the frozen graph *)
      print [Lit "Converting to Core ML..."] ;;
      inputs <- coreml_inputs_loop input_tensor_map_shapes phase_train_tensor_name [] ;;
      (* the arguments of [ct.convert] are evaluated before the call *)
      outputs <- coreml_outputs_comprehension output_tensor_names ;;
      mlmodel <- invoke (CtConvert frozen_graph_def "tensorflow" outputs inputs macOS12) ;;
      (* 6. save the model *)
      invoke (Save mlmodel output_mlmodel_path) ;;
      print [Lit "Core ML model saved to: "; Str output_mlmodel_path] ;;
      print [Lit (newline ++ "Conversion Complete!")] ;;
      print [Lit "Input details for Core ML model:"] ;;
      spec <- invoke (GetSpec mlmodel) ;;
      for_ (description_input spec) (fun spec_input =>
        print [Lit "  Name: "; Str (spec_name spec_input);
               Lit ", Type: "; Proto (spec_type spec_input)]) ;;
      print [Lit "Output details for Core ML model:"] ;;
      spec <- invoke (GetSpec mlmodel) ;;
      for_ (description_output spec) (fun spec_output =>
        print [Lit "  Name: "; Str (spec_name spec_output);
               Lit ", Type: "; Proto (spec_type spec_output)]))).

(** The configuration at the bottom of the script (right-eye model). *)
Definition MODEL_DIR := "OriginalModel/R".
Definition META_FILE := "R.meta".
Definition OUTPUT_MLMODEL_R := "RightEyeWarp.mlpackage".

Definition input_tensor_map_shapes : list (string * shape) :=
  [ ("inputs/input_img:0", Some [1; 48; 64; 3]%Z);
    ("inputs/input_fp:0", Some [1; 48; 64; 12]%Z);
    ("inputs/input_ang:0", Some [1; 2]%Z);
    ("model_control/phase_train:0", None) ].

Definition output_tensor_name := "tower_0/warping_model/Tanh:0".

Definition checkpoint_dir := MODEL_DIR.
Definition output_mlmodel_full_path := path_join MODEL_DIR OUTPUT_MLMODEL_R.

(** The call at the end of the [__main__] block. *)
Definition main_call : prog unit :=
  convert_tf_checkpoint_to_coreml checkpoint_dir META_FILE output_mlmodel_full_path
    input_tensor_map_shapes [output_tensor_name] "model_control/phase_train:0".

Definition main : prog unit :=
  print [Lit "Starting conversion for Right Eye model:"] ;;
  print [Lit "  Model Directory: "; Str MODEL_DIR] ;;
  print [Lit "  Meta File: "; Str META_FILE] ;;
  print [Lit "  Checkpoint Directory: "; Str checkpoint_dir] ;;
  print [Lit "  Output Core ML Model: "; Str output_mlmodel_full_path] ;;
  main_call.

End Converter.

(** ** inspect_model.py *)

Module Inspector.

Definition newline : string := String "010" EmptyString.

Definition operation_line (op : operation) : line :=
  [Lit "- Operation Name: "; Str (op_name op); Lit " (Type: "; Str (op_type op); Lit ")"].

Definition outputs_header (op : operation) : line :=
  [Lit "  Output Tensors from Op '"; Str (op_name op); Lit "':"].

Definition tensor_line (t : tensor_info) : line :=
  [Lit "    - Tensor Name: "; Str (t_name t); Lit " (Shape: "; Dims (t_shape t);
   Lit ", DType: "; Str (t_dtype_name t); Lit ")"].

(** The body of the loop over [graph.get_operations()]. *)
Definition print_operation (op : operation) : prog unit :=
  print (operation_line op) ;;
  if (0 <? length (op_outputs op))%nat then
    print (outputs_header op) ;;
    for_ (op_outputs op) (fun tensor => print (tensor_line tensor))
  else Ret tt.

Definition print_placeholder (ph_op : operation) : prog unit :=
  print [Lit "Potential Input (Placeholder Op): "; Str (op_name ph_op)] ;;
  for_ (op_outputs ph_op) (fun tensor =>
    print [Lit "  Tensor Name: "; Str (t_name tensor); Lit ", Shape: ";
           Dims (t_shape tensor); Lit ", DType: "; Str (t_dtype_name tensor)]).

Definition is_placeholder (op : operation) : bool :=
  String.eqb (op_type op) "Placeholder".

Definition print_hints : prog unit :=
  print [Lit (newline ++ "--- Hints for finding I/O Tensors ---")] ;;
  print [Lit "Look for tensor names related to:"] ;;
  print [Lit "  Inputs: 'im_ph', 'alpha_ph', 'beta_ph', 'input_image', 'angles', 'phase_train', or similar."] ;;
  print [Lit "          Input shapes might match (None, 48, 64, 3) for image, (None, 1) for angles based on original config.py."] ;;
  print [Lit "  Outputs: 'warp_field', 'displacement_map', 'output', 'prediction', or similar."] ;;
  print [Lit "           Output shape could be something like (None, 48, 64, 2) for a 2D warp field."].

(** Everything after the weights are restored. *)
Definition print_graph (graph : graph) : prog unit :=
  print [Lit (newline ++ "All operations and tensors in the graph:")] ;;
  ops <- invoke (GetOperations graph) ;;
  for_ ops print_operation ;;
  print [Lit (newline ++ "--- Inputs (Placeholders) ---")] ;;
  ops' <- invoke (GetOperations graph) ;;
  let placeholders := filter is_placeholder ops' in
  match placeholders with
  | _ :: _ => for_ placeholders print_placeholder
  | [] => print [Lit "No explicit Placeholder ops found. Inputs might be defined differently."]
  end ;;
  print_hints.

Definition inspect_checkpoint_model (checkpoint_dir meta_graph_filename : string)
  : prog unit :=
  graph <- invoke Graph ;;
  with_ (invoke (AsDefault graph)) (fun _ => CtxDefault graph) (fun _ =>
  with_ (invoke (Session graph)) CtxSession (fun sess =>
    saver <- invoke (ImportMetaGraph (path_join checkpoint_dir meta_graph_filename)
                       true None) ;;
    latest_ckpt <- invoke (LatestCheckpoint checkpoint_dir) ;;
    if truthy latest_ckpt then
      let ckpt := match latest_ckpt with Some s => s | None => "" end in
      print [Lit "Restoring weights from: "; Str ckpt] ;;
      restore saver sess ckpt ;;
      print [Lit "Weights restored successfully."] ;;
      print_graph graph
    else
      (* [return] *)
      print [Lit "Error: No checkpoint found in directory: "; Str checkpoint_dir])).

(** The [__main__] block, for any base directory and meta file. *)
Definition main_with (checkpoint_base_dir meta_file : string) : prog unit :=
  found <- perform (PathExists (path_join checkpoint_base_dir meta_file)) ;;
  if negb found then
    print [Lit "Error: Meta graph file not found at ";
           Str (path_join checkpoint_base_dir meta_file)]
  else
    try_except (inspect_checkpoint_model checkpoint_base_dir meta_file) (fun e =>
      print [Lit "An error occurred during model inspection: "; Err e] ;;
      perform (PrintExc e)).

Definition checkpoint_base_dir := "OriginalModel/L".
Definition meta_file := "L.meta".

Definition main : prog unit := main_with checkpoint_base_dir meta_file.

End Inspector.

(** ** More readers of a trace *)

(** The [inputs] and [outputs] arguments of a [ct.convert] call. *)
Definition convert_request (en : entry) : option (list TensorType * list TensorType) :=
  match en with
  | Called c _ =>
      match c with
      | CtConvert _ _ outs ins _ => Some (outs, ins)
      | _ => None
      end
  | Did _ _ => None
  end.

Definition declared_inputs (tr : list entry) : list (list TensorType) :=
  flat_map (fun en => match convert_request en with
                      | Some (_, ins) => [ins]
                      | None => []
                      end) tr.

Definition declared_outputs (tr : list entry) : list (list TensorType) :=
  flat_map (fun en => match convert_request en with
                      | Some (outs, _) => [outs]
                      | None => []
                      end) tr.

(** The output node names handed to [convert_variables_to_constants]. *)
Definition frozen_nodes (tr : list entry) : list (list string) :=
  flat_map (fun en => match en with
                      | Called c _ =>
                          match c with
                          | ConvertVariablesToConstants _ _ names => [names]
                          | _ => []
                          end
                      | Did _ _ => []
                      end) tr.

(** The arguments of every [import_meta_graph] call. *)
Definition imports (tr : list entry)
  : list (string * bool * option (list (string * tensor))) :=
  flat_map (fun en => match en with
                      | Called c _ =>
                          match c with
                          | ImportMetaGraph p cd im => [(p, cd, im)]
                          | _ => []
                          end
                      | Did _ _ => []
                      end) tr.

(** What every [import_meta_graph] call answered. *)
Definition import_answers (tr : list entry) : list (exn + option saver) :=
  flat_map (fun en => match en with
                      | Called c r =>
                          match c in call X return exn + X -> list (exn + option saver) with
                          | ImportMetaGraph _ _ _ => fun r => [r]
                          | _ => fun _ => []
                          end r
                      | Did _ _ => []
                      end) tr.

(** The constants [tf.constant] returned, with the value and type asked
    for. *)
Definition made_constants (tr : list entry) : list (bool * dtype * string * tensor) :=
  flat_map (fun en => match en with
                      | Called c r =>
                          match c in call X return exn + X -> list (bool * dtype * string * tensor) with
                          | Constant v dt n =>
                              fun r => match r with inr t => [(v, dt, n, t)] | inl _ => [] end
                          | _ => fun _ => []
                          end r
                      | Did _ _ => []
                      end) tr.

(** What every [latest_checkpoint] call answered. *)
Definition lookups (tr : list entry) : list (exn + option string) :=
  flat_map (fun en => match en with
                      | Called c r =>
                          match c in call X return exn + X -> list (exn + option string) with
                          | LatestCheckpoint _ => fun r => [r]
                          | _ => fun _ => []
                          end r
                      | Did _ _ => []
                      end) tr.

(** What every [get_operations] call answered. *)
Definition listed (en : entry) : list (exn + list operation) :=
  match en with
  | Called c r =>
      match c in call X return exn + X -> list (exn + list operation) with
      | GetOperations _ => fun r => [r]
      | _ => fun _ => []
      end r
  | Did _ _ => []
  end.

Definition listings (tr : list entry) : list (exn + list operation) :=
  flat_map listed tr.

(** The data of every [f.write] call. *)
Definition written (tr : list entry) : list bytes :=
  flat_map (fun en => match en with
                      | Called c _ =>
                          match c with
                          | Write _ data => [data]
                          | _ => []
                          end
                      | Did _ _ => []
                      end) tr.

(** The calls that freeze, write the frozen graph, declare a tensor to the
    converter, convert or save. *)
Definition is_attempt (en : entry) : bool :=
  match en with
  | Called c _ =>
      match c with
      | SessGraphDef _ | ConvertVariablesToConstants _ _ _
      | GFile _ _ | SerializeToString _ | Write _ _
      | MakeTensorType _ _ | CtConvert _ _ _ _ _ | Save _ _ => true
      | _ => false
      end
  | Did _ _ => false
  end.

Definition attempts (tr : list entry) : list entry := filter is_attempt tr.

(** ** Properties of a script, read off its tree *)

(** Every operation the script can ever perform satisfies [P]. *)
Inductive always {R} (P : entry -> Prop) : prog R -> Prop :=
| always_ret r : always P (Ret r)
| always_raise e : always P (Raise e)
| always_do X (a : effect X) k :
    (forall x, P (Did a x)) -> (forall x, always P (k x)) -> always P (Do a k)
| always_call X (c : call X) k :
    (forall r, P (Called c r)) -> (forall r, always P (k r)) -> always P (Call c k).

(** [unwinding e p]: [p] leaves the enclosing [with] blocks and raises
    [e]. *)
Inductive unwinding {R} (e : exn) : prog R -> Prop :=
| unwinding_raise : unwinding e (Raise e)
| unwinding_leave c k :
    (forall x, unwinding e (k x)) -> unwinding e (Do (Leave c) k).

(** [propagating p]: whatever a call of [p] raises is raised by [p]; no
    handler stands in between. *)
Inductive propagating {R} : prog R -> Prop :=
| propagating_ret r : propagating (Ret r)
| propagating_raise e : propagating (Raise e)
| propagating_do X (a : effect X) k :
    (forall x, propagating (k x)) -> propagating (Do a k)
| propagating_call X (c : call X) k :
    (forall e, unwinding e (k (inl e))) ->
    (forall x, propagating (k (inr x))) -> propagating (Call c k).

(** What the result of [p] followed by [f] is, from the result of [p]. *)
Definition then_ {W A B} (r : result W A) (f : A -> W -> result W B) : result W B :=
  match outcome r with
  | inl e => Result (inl e) (trace r) (final r)
  | inr x =>
      let r' := f x (final r) in
      Result (outcome r') (trace r ++ trace r') (final r')
  end.

(** ** A stand-in for the libraries

    A small library and file system to run the scripts against.  A [disk]
    says whether the meta file is there and whether its graph holds
    variables, which checkpoint is the latest, what the graph holds, and
    whether the checkpoint can be read and the graph converted.  The state is
    a clock that counts the calls made. *)

Module Fake.

Record disk := Disk
  { meta_present : bool;
    variables : bool;
    latest : option string;
    operations : list operation;
    weights : bytes;
    ordered : bool;
    spec : model_spec;
    restorable : bool;
    convertible : bool }.

Definition sys (d : disk) (X : Type) (a : effect X) (clock : N) : X * N :=
  match a in effect X return X * N with
  | Print _ => (tt, clock)
  | PrintExc _ => (tt, clock)
  | PathExists _ => (meta_present d, clock)
  | Leave _ => (tt, clock)
  end.

(** A shape [ct.TensorType] accepts: no negative dimension. *)
Definition accepted (shp : shape) : bool :=
  match shp with
  | None => true
  | Some dims => forallb (fun d => (0 <=? d)%Z) dims
  end.

(** The serialized graph: the fields of the message come in one order or
    the other with the state of the process, unless the disk is [ordered]. *)
Definition serialized (d : disk) (clock : N) : bytes :=
  if (ordered d || N.even clock)%bool then weights d else rev (weights d).

Definition fw (d : disk) (X : Type) (c : call X) (clock : N) : (exn + X) * N :=
  (match c in call X return exn + X with
   | DisableEagerExecution => inr tt
   | Graph => inr (GraphRef 0)
   | AsDefault _ => inr tt
   | Session _ => inr (SessionRef 0)
   | Constant _ _ _ => inr (TensorRef 0)
   | ImportMetaGraph path _ _ =>
       if meta_present d
       then inr (if variables d then Some (SaverRef 0) else None)
       else inl (Exn "OSError" ("File does not exist: " ++ path))
   | LatestCheckpoint _ => inr (latest d)
   | Restore _ _ ckpt =>
       if restorable d then inr tt
       else inl (Exn "DataLossError" ("Unable to open table file " ++ ckpt))
   | SessGraphDef _ => inr (GraphDefRef 0)
   | ConvertVariablesToConstants _ _ _ => inr (GraphDefRef 1)
   | GFile _ _ => inr (GFileRef 0)
   | SerializeToString _ => inr (serialized d clock)
   | Write _ _ => inr tt
   | MakeTensorType name shp =>
       if accepted shp then inr tt
       else inl (Exn "ValueError" ("Invalid shape for input " ++ name))
   | CtConvert _ _ _ _ _ =>
       if convertible d then inr (MLModelRef clock)
       else inl (Exn "NotImplementedError" "Conversion for TF op not implemented.")
   | Save _ _ => inr tt
   | GetSpec _ => inr (spec d)
   | GetOperations _ => inr (operations d)
   end, (clock + 1)%N).

Definition placeholder_op : operation :=
  {| op_name := "inputs/input_img"; op_type := "Placeholder";
     op_outputs := [{| t_name := "inputs/input_img:0";
                       t_shape := Some [None; Some 48; Some 64; Some 3]%Z;
                       t_dtype_name := "float32" |}] |}.

Definition tanh_op : operation :=
  {| op_name := "tower_0/warping_model/Tanh"; op_type := "Tanh";
     op_outputs := [{| t_name := "tower_0/warping_model/Tanh:0";
                       t_shape := Some [None; Some 48; Some 64; Some 2]%Z;
                       t_dtype_name := "float32" |}] |}.

Definition no_op : operation :=
  {| op_name := "init"; op_type := "NoOp"; op_outputs := [] |}.

(** A letter, a digit or the underscore. *)
Definition identifier_char (c : ascii) : bool :=
  let n := nat_of_ascii c in
  ((48 <=? n) && (n <=? 57) || (65 <=? n) && (n <=? 90)
   || (97 <=? n) && (n <=? 122) || (n =? 95))%nat%bool.

(** The converter names the inputs and outputs of the model it makes after
    the tensors asked for, every other character replaced by an
    underscore. *)
Fixpoint sanitize (s : string) : string :=
  match s with
  | EmptyString => EmptyString
  | String c s' => String (if identifier_char c then c else "_"%char) (sanitize s')
  end.

(** The description of the model converted from the right-eye
    configuration. *)
Definition sample_spec : model_spec :=
  {| description_input :=
       [{| spec_name := sanitize "inputs/input_img"; spec_type := FeatureTypeRef 0 |};
        {| spec_name := sanitize "inputs/input_fp"; spec_type := FeatureTypeRef 0 |};
        {| spec_name := sanitize "inputs/input_ang"; spec_type := FeatureTypeRef 0 |}];
     description_output :=
       [{| spec_name := sanitize "tower_0/warping_model/Tanh:0";
           spec_type := FeatureTypeRef 1 |}] |}.

(** A directory with the meta file and a checkpoint. *)
Definition trained : disk :=
  Disk true true (Some "OriginalModel/R/R") [placeholder_op; tanh_op; no_op]
       [Byte.x0a; Byte.x01] true sample_spec true true.

(** The same, with checkpoint data that cannot be read. *)
Definition corrupt : disk :=
  Disk true true (Some "OriginalModel/R/R") [placeholder_op; tanh_op; no_op]
       [Byte.x0a; Byte.x01] true sample_spec false true.

(** The same, with an operator the converter rejects. *)
Definition unconvertible : disk :=
  Disk true true (Some "OriginalModel/R/R") [placeholder_op; tanh_op; no_op]
       [Byte.x0a; Byte.x01] true sample_spec true false.

(** The same, with a serialization whose field order varies. *)
Definition unordered : disk :=
  Disk true true (Some "OriginalModel/R/R") [placeholder_op; tanh_op; no_op]
       [Byte.x0a; Byte.x01] false sample_spec true true.

(** The same, with a meta graph that holds no variable. *)
Definition without_variables : disk :=
  Disk true false (Some "OriginalModel/R/R") [placeholder_op; tanh_op; no_op]
       [Byte.x0a; Byte.x01] true sample_spec true true.

(** A directory with the meta file but no checkpoint. *)
Definition untrained : disk :=
  Disk true true None [placeholder_op; tanh_op; no_op] [] true sample_spec true true.

(** An empty directory. *)
Definition empty : disk := Disk false true None [] [] true sample_spec true true.

End Fake.

(** ** Assumptions on the libraries used in the statements *)

(** No checkpoint can be located in [dir], whenever it is looked for. *)
Definition no_checkpoint {W} (fw : forall X, call X -> W -> (exn + X) * W)
           (dir : string) : Prop :=
  forall w, fst (fw _ (LatestCheckpoint dir) w) = inr None.

(** The graph holds the operations [ops]: [get_operations] answers them
    whenever it is asked. *)
Definition graph_holds {W} (fw : forall X, call X -> W -> (exn + X) * W)
           (ops : list operation) : Prop :=
  forall g w, fst (fw _ (GetOperations g) w) = inr ops.

(** ** The Inspector's listing, line by line *)

(** The lines the first loop prints for one operation. *)
Definition operation_listing (op : operation) : list line :=
  Inspector.operation_line op
  :: (if (0 <? length (op_outputs op))%nat
      then Inspector.outputs_header op :: map Inspector.tensor_line (op_outputs op)
      else []).

Definition starts_with (prefix : string) (l : line) : bool :=
  match l with
  | Lit s :: _ => String.eqb s prefix
  | _ => false
  end.

(** The lines of the operation listing that name an operation, and those
    that describe a tensor. *)
Definition is_operation_line : line -> bool := starts_with "- Operation Name: ".
Definition is_tensor_line : line -> bool := starts_with "    - Tensor Name: ".

(** A line of neither kind. *)
Definition other_line (l : line) : Prop :=
  is_operation_line l = false /\ is_tensor_line l = false.

(** ** Further readers *)

(** The library entry points, without their arguments. *)
Variant step :=
| SDisableEagerExecution | SGraph | SAsDefault | SSession | SConstant
| SImportMetaGraph | SLatestCheckpoint | SRestore | SSessGraphDef
| SConvertVariablesToConstants | SGFile | SSerializeToString | SWrite
| STensorType | SCtConvert | SSave | SGetSpec | SGetOperations.

Definition step_of {X} (c : call X) : step :=
  match c with
  | DisableEagerExecution => SDisableEagerExecution
  | Graph => SGraph
  | AsDefault _ => SAsDefault
  | Session _ => SSession
  | Constant _ _ _ => SConstant
  | ImportMetaGraph _ _ _ => SImportMetaGraph
  | LatestCheckpoint _ => SLatestCheckpoint
  | Restore _ _ _ => SRestore
  | SessGraphDef _ => SSessGraphDef
  | ConvertVariablesToConstants _ _ _ => SConvertVariablesToConstants
  | GFile _ _ => SGFile
  | SerializeToString _ => SSerializeToString
  | Write _ _ => SWrite
  | MakeTensorType _ _ => STensorType
  | CtConvert _ _ _ _ _ => SCtConvert
  | Save _ _ => SSave
  | GetSpec _ => SGetSpec
  | GetOperations _ => SGetOperations
  end.

Definition stepped (en : entry) : list step :=
  match en with
  | Called c _ => [step_of c]
  | Did _ _ => []
  end.

(** The entry points a run went through, in order. *)
Definition steps (tr : list entry) : list step := flat_map stepped tr.

(** The context a call entered, when it succeeded. *)
Definition entered_by (en : entry) : list ctx :=
  match en with
  | Called c r =>
      match c in call X return exn + X -> list ctx with
      | AsDefault g => fun r => match r with inr _ => [CtxDefault g] | inl _ => [] end
      | Session _ => fun r => match r with inr s => [CtxSession s] | inl _ => [] end
      | GFile _ _ => fun r => match r with inr f => [CtxFile f] | inl _ => [] end
      | _ => fun _ => []
      end r
  | Did _ _ => []
  end.

Definition entered (tr : list entry) : list ctx := flat_map entered_by tr.

Definition left_by (en : entry) : list ctx :=
  match en with
  | Did a _ => match a with Leave c => [c] | _ => [] end
  | Called _ _ => []
  end.

(** The contexts left, in order. *)
Definition left (tr : list entry) : list ctx := flat_map left_by tr.

Definition restored_by (en : entry) : list string :=
  match en with
  | Called c _ => match c with Restore _ _ ckpt => [ckpt] | _ => [] end
  | Did _ _ => []
  end.

(** The checkpoints [saver.restore] was asked to read. *)
Definition restores (tr : list entry) : list string := flat_map restored_by tr.

Definition opened_by (en : entry) : list (string * string) :=
  match en with
  | Called c _ => match c with GFile path mode => [(path, mode)] | _ => [] end
  | Did _ _ => []
  end.

(** The files opened, each with its mode. *)
Definition opened (tr : list entry) : list (string * string) := flat_map opened_by tr.

(** The steps of a conversion that declares [inputs] inputs and [outputs]
    outputs, as the Converter goes through them. *)
Definition converter_pipeline (inputs outputs : nat) : list step :=
  [SDisableEagerExecution; SGraph; SAsDefault; SSession; SConstant;
   SImportMetaGraph; SLatestCheckpoint; SRestore; SSessGraphDef;
   SConvertVariablesToConstants; SGFile; SSerializeToString; SWrite]
  ++ repeat STensorType inputs ++ repeat STensorType outputs
  ++ [SCtConvert; SSave; SGetSpec; SGetSpec].

(** The steps of an inspection. *)
Definition inspector_pipeline : list step :=
  [SGraph; SAsDefault; SSession; SImportMetaGraph; SLatestCheckpoint;
   SRestore; SGetOperations; SGetOperations].

(** The line of the Converter's summary for one input or output. *)
Definition feature_line (ft : feature) : line :=
  [Lit "  Name: "; Str (spec_name ft); Lit ", Type: "; Proto (spec_type ft)].

(** A character other than the colon everywhere in the string. *)
Fixpoint colon_free (s : string) : bool :=
  match s with
  | EmptyString => true
  | String c s' => negb (Ascii.eqb c ":") && colon_free s'
  end.

Definition spec_answered_by (en : entry) : list (exn + model_spec) :=
  match en with
  | Called c r =>
      match c in call X return exn + X -> list (exn + model_spec) with
      | GetSpec _ => fun r => [r]
      | _ => fun _ => []
      end r
  | Did _ _ => []
  end.

(** What every [get_spec] call answered. *)
Definition specs (tr : list entry) : list (exn + model_spec) :=
  flat_map spec_answered_by tr.

(** The trace of making the tensor types [ts], one after the other. *)
Definition constructions (ts : list TensorType) : list entry :=
  map (fun t => Called (MakeTensorType (tt_name t) (tt_shape t)) (inr tt)) ts.

(** The graphs [convert_variables_to_constants] returned. *)
Definition frozen_graphs (tr : list entry) : list (exn + graph_def) :=
  flat_map (fun en => match en with
                      | Called c r =>
                          match c in call X return exn + X -> list (exn + graph_def) with
                          | ConvertVariablesToConstants _ _ _ => fun r => [r]
                          | _ => fun _ => []
                          end r
                      | Did _ _ => []
                      end) tr.

(** The graphs serialized, each with what [SerializeToString] answered. *)
Definition serializations (tr : list entry) : list (graph_def * (exn + bytes)) :=
  flat_map (fun en => match en with
                      | Called c r =>
                          match c in call X return exn + X -> list (graph_def * (exn + bytes)) with
                          | SerializeToString gd => fun r => [(gd, r)]
                          | _ => fun _ => []
                          end r
                      | Did _ _ => []
                      end) tr.

(** The outputs asked of [ct.convert], each with the model it answered. *)
Definition conversions (tr : list entry) : list (list TensorType * (exn + mlmodel)) :=
  flat_map (fun en => match en with
                      | Called c r =>
                          match c in call X return exn + X -> list (list TensorType * (exn + mlmodel)) with
                          | CtConvert _ _ outs _ _ => fun r => [(outs, r)]
                          | _ => fun _ => []
                          end r
                      | Did _ _ => []
                      end) tr.

(** The models saved, each with the path it was saved at. *)
Definition saved (tr : list entry) : list (mlmodel * string) :=
  flat_map (fun en => match en with
                      | Called c _ =>
                          match c with
                          | Save m path => [(m, path)]
                          | _ => []
                          end
                      | Did _ _ => []
                      end) tr.

(** The models asked for their description, each with the answer. *)
Definition described (tr : list entry) : list (mlmodel * (exn + model_spec)) :=
  flat_map (fun en => match en with
                      | Called c r =>
                          match c in call X return exn + X -> list (mlmodel * (exn + model_spec)) with
                          | GetSpec m => fun r => [(m, r)]
                          | _ => fun _ => []
                          end r
                      | Did _ _ => []
                      end) tr.

(** The output names of the descriptions read in a run: what the
    artifact declares. *)
Definition artifact_outputs (tr : list entry) : list (list string) :=
  flat_map (fun d => match snd d with
                     | inr sp => [map spec_name (description_output sp)]
                     | inl _ => []
                     end) (described tr).

(** The checkpoints given to [saver.restore], each with the answer. *)
Definition restorations (tr : list entry) : list (string * (exn + unit)) :=
  flat_map (fun en => match en with
                      | Called c r =>
                          match c in call X return exn + X -> list (string * (exn + unit)) with
                          | Restore _ _ ckpt => fun r => [(ckpt, r)]
                          | _ => fun _ => []
                          end r
                      | Did _ _ => []
                      end) tr.

(** The tensor types the constructor refused, each with the exception it
    raised. *)
Definition refusals (tr : list entry) : list (string * shape * exn) :=
  flat_map (fun en => match en with
                      | Called c r =>
                          match c in call X return exn + X -> list (string * shape * exn) with
                          | MakeTensorType name shp =>
                              fun r => match r with
                                       | inl e => [(name, shp, e)]
                                       | inr _ => []
                                       end
                          | _ => fun _ => []
                          end r
                      | Did _ _ => []
                      end) tr.

(** The trace of printing the lines [ls], one after the other. *)
Definition prints (ls : list line) : list entry :=
  map (fun l => Did (Print l) tt) ls.


Definition placeholder_tensor_line (t : tensor_info) : line :=
  [Lit "  Tensor Name: "; Str (t_name t); Lit ", Shape: ";
   Dims (t_shape t); Lit ", DType: "; Str (t_dtype_name t)].

(** The lines the second loop prints for one placeholder. *)
Definition placeholder_listing (ph_op : operation) : list line :=
  [Lit "Potential Input (Placeholder Op): "; Str (op_name ph_op)]
  :: map placeholder_tensor_line (op_outputs ph_op).



(** The closing hints, which do not depend on the graph. *)
Definition hint_lines : list line :=
  [ [Lit (Inspector.newline ++ "--- Hints for finding I/O Tensors ---")];
    [Lit "Look for tensor names related to:"];
    [Lit "  Inputs: 'im_ph', 'alpha_ph', 'beta_ph', 'input_image', 'angles', 'phase_train', or similar."];
    [Lit "          Input shapes might match (None, 48, 64, 3) for image, (None, 1) for angles based on original config.py."];
    [Lit "  Outputs: 'warp_field', 'displacement_map', 'output', 'prediction', or similar."];
    [Lit "           Output shape could be something like (None, 48, 64, 2) for a 2D warp field."] ].


(** One declared input of the Converter, for one entry of the map. *)
Definition declare (item : string * shape) : TensorType :=
  {| tt_name := strip_port (fst item); tt_shape := snd item |}.


(** * Lemmas on running scripts *)

Section Theory.
Context {W : Type}.
Variable sys : forall X, effect X -> W -> X * W.
Variable fw : forall X, call X -> W -> (exn + X) * W.

Lemma run_bind {A B} (p : prog A) (f : A -> prog B) (w : W) :
  run sys fw (bind p f) w = then_ (run sys fw p w) (fun x w' => run sys fw (f x) w').
Proof.
  revert w. induction p as [r|e|X a k IH|X c k IH]; intros w; cbn.
  - unfold then_; cbn. destruct (run sys fw (f r) w); reflexivity.
  - reflexivity.
  - rewrite IH. unfold then_, logged; cbn.
    destruct (outcome (run sys fw (k (fst (sys X a w))) (snd (sys X a w)))); reflexivity.
  - rewrite IH. unfold then_, logged; cbn.
    destruct (outcome (run sys fw (k (fst (fw X c w))) (snd (fw X c w)))); reflexivity.
Qed.

Lemma always_run {R} (P : entry -> Prop) (p : prog R) :
  always P p -> forall w, Forall P (trace (run sys fw p w)).
Proof.
  induction 1 as [r|e|X a k Ha Hk IH|X c k Hc Hk IH]; intros w; cbn.
  - constructor.
  - constructor.
  - constructor; [apply Ha | apply IH].
  - constructor; [apply Hc | apply IH].
Qed.

Lemma always_weaken {R} (P Q : entry -> Prop) (p : prog R) :
  (forall en, P en -> Q en) -> always P p -> always Q p.
Proof.
  intros HPQ. induction 1; constructor; auto.
Qed.

Lemma always_bind {A B} (P : entry -> Prop) (p : prog A) (f : A -> prog B) :
  always P p -> (forall x, always P (f x)) -> always P (bind p f).
Proof.
  intros Hp Hf. induction Hp; cbn; try constructor; auto.
Qed.

Lemma always_invoke {X} (P : entry -> Prop) (c : call X) :
  (forall r, P (Called c r)) -> always P (invoke c).
Proof.
  intros Hc. constructor; [assumption|]. intros [e|x]; constructor.
Qed.

Lemma always_print (P : entry -> Prop) (l : line) :
  P (Did (Print l) tt) -> always P (print l).
Proof.
  intros Hl. constructor; [intros []; assumption | intro; constructor].
Qed.

Lemma always_finally {R} (P : entry -> Prop) (p : prog R) (a : effect unit) :
  P (Did a tt) -> always P p -> always P (finally_ p a).
Proof.
  intros Ha. induction 1; cbn; constructor; auto;
    try (intros []; assumption); intro; constructor.
Qed.

Lemma always_with {X R} (P : entry -> Prop) (enter : prog X) cm (body : X -> prog R) :
  always P enter -> (forall x, P (Did (Leave (cm x)) tt)) ->
  (forall x, always P (body x)) -> always P (with_ enter cm body).
Proof.
  intros He Hc Hb. unfold with_. apply always_bind; [assumption|].
  intro x. apply always_finally; auto.
Qed.

Lemma always_for {A} (P : entry -> Prop) (l : list A) (body : A -> prog unit) :
  (forall x, always P (body x)) -> always P (for_ l body).
Proof.
  intros Hb. induction l as [|x l IH]; cbn.
  - constructor.
  - apply always_bind; auto.
Qed.

Lemma always_restore (P : entry -> Prop) (saver : option saver) sess ckpt :
  (forall sv r, P (Called (Restore sv sess ckpt) r)) ->
  always P (restore saver sess ckpt).
Proof.
  intros Hc. destruct saver as [sv|]; cbn; [|constructor].
  apply always_invoke. apply Hc.
Qed.

Lemma always_tensor_type (P : entry -> Prop) (name : string) (shp : shape) :
  (forall r, P (Called (MakeTensorType name shp) r)) ->
  always P (tensor_type name shp).
Proof.
  intros Hc. unfold tensor_type. apply always_bind.
  - apply always_invoke. exact Hc.
  - intro. constructor.
Qed.

Lemma always_comprehension {A B} (P : entry -> Prop) (f : A -> prog B) (l : list A) :
  (forall x, always P (f x)) -> always P (comprehension f l).
Proof.
  intros Hf. induction l as [|x l IH]; cbn [comprehension].
  - constructor.
  - apply always_bind; [apply Hf|]. intro y.
    apply always_bind; [exact IH|]. intro ys. constructor.
Qed.

Lemma always_coreml_inputs_loop (P : entry -> Prop) (items : list (string * shape))
      (p : string) (acc : list TensorType) :
  (forall name shp r, P (Called (MakeTensorType name shp) r)) ->
  always P (Converter.coreml_inputs_loop items p acc).
Proof.
  intros Hc. revert acc. induction items as [|[k shp] items IH]; intros acc;
    cbn [Converter.coreml_inputs_loop].
  - constructor.
  - destruct (String.eqb k p); [apply IH|].
    apply always_bind; [apply always_tensor_type; apply Hc|].
    intro t. apply IH.
Qed.

(** A reader defined entry by entry sees in a trace what it sees in
    its entries. *)
Lemma reader_all {A} (f : entry -> list A) (Q : A -> Prop) (tr : list entry) :
  Forall (fun en => forall x, In x (f en) -> Q x) tr ->
  forall x, In x (flat_map f tr) -> Q x.
Proof.
  induction 1 as [|en tr Hen _ IH]; cbn; intros x Hx.
  - contradiction.
  - apply in_app_or in Hx. destruct Hx; auto.
Qed.

Lemma reader_nil {A} (f : entry -> list A) (tr : list entry) :
  Forall (fun en => f en = []) tr -> flat_map f tr = [].
Proof.
  induction 1 as [|en tr Hen _ IH]; cbn; [reflexivity|].
  rewrite Hen, IH. reflexivity.
Qed.

(** *** Exceptions pass through *)

Lemma unwinding_bind {A B} e (p : prog A) (f : A -> prog B) :
  unwinding e p -> unwinding e (bind p f).
Proof. induction 1; cbn; constructor; auto. Qed.

Lemma unwinding_finally {R} e (p : prog R) c :
  unwinding e p -> unwinding e (finally_ p (Leave c)).
Proof. induction 1; cbn; repeat constructor; auto. Qed.

Lemma propagating_bind {A B} (p : prog A) (f : A -> prog B) :
  propagating p -> (forall x, propagating (f x)) -> propagating (bind p f).
Proof.
  intros Hp Hf. induction Hp; cbn; try constructor; auto.
  intro e. apply unwinding_bind. auto.
Qed.

Lemma propagating_invoke {X} (c : call X) : propagating (invoke c).
Proof. constructor; intros; constructor. Qed.

Lemma propagating_print l : propagating (print l).
Proof. constructor; intros; constructor. Qed.

Lemma propagating_finally {R} (p : prog R) c :
  propagating p -> propagating (finally_ p (Leave c)).
Proof.
  induction 1; cbn; constructor; auto; try (intro; constructor).
  intro e. apply unwinding_finally. auto.
Qed.

Lemma propagating_with {X R} (enter : prog X) cm (body : X -> prog R) :
  propagating enter -> (forall x, propagating (body x)) ->
  propagating (with_ enter cm body).
Proof.
  intros He Hb. unfold with_. apply propagating_bind; [assumption|].
  intro x. apply propagating_finally. auto.
Qed.

Lemma propagating_restore (saver : option saver) sess ckpt :
  propagating (restore saver sess ckpt).
Proof.
  destruct saver; cbn; [apply propagating_invoke|constructor].
Qed.

Lemma propagating_tensor_type (name : string) (shp : shape) :
  propagating (tensor_type name shp).
Proof.
  unfold tensor_type. apply propagating_bind; [apply propagating_invoke|].
  intro. constructor.
Qed.

Lemma propagating_comprehension {A B} (f : A -> prog B) (l : list A) :
  (forall x, propagating (f x)) -> propagating (comprehension f l).
Proof.
  intros Hf. induction l as [|x l IH]; cbn [comprehension]; [constructor|].
  apply propagating_bind; [apply Hf|]. intro y.
  apply propagating_bind; [exact IH|]. intro ys. constructor.
Qed.

Lemma propagating_coreml_inputs_loop (items : list (string * shape)) (p : string)
      (acc : list TensorType) :
  propagating (Converter.coreml_inputs_loop items p acc).
Proof.
  revert acc. induction items as [|[k shp] items IH]; intros acc;
    cbn [Converter.coreml_inputs_loop]; [constructor|].
  destruct (String.eqb k p); [apply IH|].
  apply propagating_bind; [apply propagating_tensor_type|]. intro t. apply IH.
Qed.

Lemma propagating_for {A} (l : list A) (body : A -> prog unit) :
  (forall x, propagating (body x)) -> propagating (for_ l body).
Proof.
  intros Hb. induction l; cbn; [constructor|]. apply propagating_bind; auto.
Qed.

Lemma failures_cons en tr :
  failures (en :: tr)
  = match failure_of en with Some e => [e] | None => [] end ++ failures tr.
Proof. reflexivity. Qed.

Lemma failures_app tr1 tr2 : failures (tr1 ++ tr2) = failures tr1 ++ failures tr2.
Proof. unfold failures. apply flat_map_app. Qed.

Lemma unwinding_run {R} e (p : prog R) :
  unwinding e p -> forall w,
  outcome (run sys fw p w) = inl e /\ failures (trace (run sys fw p w)) = [].
Proof.
  induction 1 as [|c k Hk IH]; intros w; cbn [run logged trace outcome].
  - auto.
  - rewrite failures_cons. apply IH.
Qed.

(** If a call of a propagating script raised [e], the script raised [e],
    and no other call failed. *)
Lemma propagating_run {R} (p : prog R) :
  propagating p -> forall w e,
  In e (failures (trace (run sys fw p w))) ->
  outcome (run sys fw p w) = inl e /\ failures (trace (run sys fw p w)) = [e].
Proof.
  induction 1 as [r|e0|X a k Hk IH|X c k Hu Hk IH]; intros w e;
    cbn [run logged trace outcome]; try rewrite failures_cons.
  - contradiction.
  - contradiction.
  - apply IH.
  - destruct (fw X c w) as [[e1|x] w']; cbn [fst snd failure_of app].
    + destruct (unwinding_run e1 _ (Hu e1) w') as [Ho Hf].
      rewrite Ho, Hf. intros [<-|[]]. auto.
    + apply IH.
Qed.

(** *** Handlers *)

Lemma run_try_except {R} (p : prog R) (h : exn -> prog R) (w : W) :
  run sys fw (try_except p h) w
  = match outcome (run sys fw p w) with
    | inl e =>
        let r' := run sys fw (h e) (final (run sys fw p w)) in
        Result (outcome r') (trace (run sys fw p w) ++ trace r') (final r')
    | inr _ => run sys fw p w
    end.
Proof.
  revert w. induction p as [r|e|X a k IH|X c k IH]; intros w; cbn.
  - reflexivity.
  - destruct (run sys fw (h e) w); reflexivity.
  - rewrite IH. unfold logged.
    destruct (run sys fw (k (fst (sys X a w))) (snd (sys X a w))) as [[?|?] ? ?];
      reflexivity.
  - rewrite IH. unfold logged.
    destruct (run sys fw (k (fst (fw X c w))) (snd (fw X c w))) as [[?|?] ? ?];
      reflexivity.
Qed.

(** *** Printing *)

Lemma stdout_cons en tr : stdout (en :: tr) = printed en ++ stdout tr.
Proof. reflexivity. Qed.

Lemma stdout_app t1 t2 : stdout (t1 ++ t2) = stdout t1 ++ stdout t2.
Proof. apply flat_map_app. Qed.

Lemma listings_cons en tr : listings (en :: tr) = listed en ++ listings tr.
Proof. reflexivity. Qed.

Lemma listings_app t1 t2 : listings (t1 ++ t2) = listings t1 ++ listings t2.
Proof. apply flat_map_app. Qed.

Lemma filter_stdout (g : line -> bool) (tr : list entry) :
  filter g (stdout tr) = flat_map (fun en => filter g (printed en)) tr.
Proof.
  unfold stdout. induction tr as [|en tr IH]; cbn; [reflexivity|].
  rewrite filter_app, IH. reflexivity.
Qed.


Lemma stdout_other (tr : list entry) :
  Forall (fun en => Forall other_line (printed en)) tr -> Forall other_line (stdout tr).
Proof.
  induction 1 as [|en tr Hen _ IH]; cbn; [constructor|].
  apply Forall_app. split; assumption.
Qed.

Lemma run_print (l : line) (w : W) :
  run sys fw (print l) w
  = Result (inr tt) [Did (Print l) tt] (snd (sys unit (Print l) w)).
Proof.
  unfold print, perform. cbn. destruct (fst (sys unit (Print l) w)). reflexivity.
Qed.

Lemma run_finally {R} (p : prog R) (a : effect unit) (w : W) :
  run sys fw (finally_ p a) w
  = Result (outcome (run sys fw p w))
           (trace (run sys fw p w) ++ [Did a tt])
           (snd (sys unit a (final (run sys fw p w)))).
Proof.
  revert w. induction p as [r|e|X b k IH|X c k IH]; intros w; cbn.
  - destruct (fst (sys unit a w)). reflexivity.
  - destruct (fst (sys unit a w)). reflexivity.
  - rewrite IH. reflexivity.
  - rewrite IH. reflexivity.
Qed.

(** A loop that only prints. *)
Lemma run_for_print {A} (l : list A) (f : A -> line) (w : W) :
  outcome (run sys fw (for_ l (fun x => print (f x))) w) = inr tt /\
  stdout (trace (run sys fw (for_ l (fun x => print (f x))) w)) = map f l /\
  listings (trace (run sys fw (for_ l (fun x => print (f x))) w)) = [].
Proof.
  revert w. induction l as [|x l IH]; intros w; cbn [for_].
  - cbn. auto.
  - rewrite run_bind, run_print. unfold then_. cbn [outcome trace final].
    destruct (IH (snd (sys unit (Print (f x)) w))) as (Ho & Hs & Hl).
    rewrite stdout_app, listings_app, Ho, Hs, Hl. cbn. auto.
Qed.

(** *** The Inspector's first loop *)

Lemma run_print_operation (op : operation) (w : W) :
  outcome (run sys fw (Inspector.print_operation op) w) = inr tt /\
  stdout (trace (run sys fw (Inspector.print_operation op) w)) = operation_listing op /\
  listings (trace (run sys fw (Inspector.print_operation op) w)) = [].
Proof.
  unfold Inspector.print_operation, operation_listing.
  rewrite run_bind, run_print. unfold then_. cbn [outcome trace final].
  destruct (0 <? length (op_outputs op))%nat.
  - rewrite run_bind, run_print. unfold then_. cbn [outcome trace final].
    match goal with |- context [run sys fw (for_ ?l ?b) ?w] =>
      destruct (run_for_print l Inspector.tensor_line w) as (Ho & Hs & Hl) end.
    rewrite !stdout_app, !listings_app, Ho, Hs, Hl. cbn. auto.
  - cbn. auto.
Qed.

Lemma run_for_print_operation (ops : list operation) (w : W) :
  outcome (run sys fw (for_ ops Inspector.print_operation) w) = inr tt /\
  stdout (trace (run sys fw (for_ ops Inspector.print_operation) w))
  = flat_map operation_listing ops /\
  listings (trace (run sys fw (for_ ops Inspector.print_operation) w)) = [].
Proof.
  revert w. induction ops as [|op ops IH]; intros w; cbn [for_ flat_map].
  - cbn. auto.
  - rewrite run_bind. unfold then_.
    destruct (run_print_operation op w) as (Ho & Hs & Hl). rewrite Ho.
    cbn [outcome trace].
    destruct (IH (final (run sys fw (Inspector.print_operation op) w))) as (Ho' & Hs' & Hl').
    rewrite stdout_app, listings_app, Ho', Hs, Hs', Hl, Hl'. auto.
Qed.




(** *** The Converter's input loop *)

Lemma coreml_inputs_from (acc : list TensorType) (ims : list (string * shape)) (p : string) :
  fold_left
    (fun acc (item : string * shape) =>
       let (name_with_port, shp) := item in
       if String.eqb name_with_port p then acc
       else acc ++ [{| tt_name := strip_port name_with_port; tt_shape := shp |}])
    ims acc
  = acc ++ flat_map (fun item : string * shape =>
                       if String.eqb (fst item) p then []
                       else [{| tt_name := strip_port (fst item); tt_shape := snd item |}])
                    ims.
Proof.
  revert acc. induction ims as [|[k s] ims IH]; intros acc; cbn.
  - now rewrite app_nil_r.
  - rewrite IH. destruct (String.eqb k p); cbn; [reflexivity|].
    now rewrite <- app_assoc.
Qed.

Lemma coreml_inputs_flat_map (ims : list (string * shape)) (p : string) :
  Converter.coreml_inputs ims p
  = flat_map (fun item : string * shape =>
                if String.eqb (fst item) p then [] else [declare item]) ims.
Proof.
  unfold Converter.coreml_inputs. rewrite coreml_inputs_from. reflexivity.
Qed.

(** *** Making tensor types *)

Lemma run_tensor_type (name : string) (shp : shape) (w : W) :
  run sys fw (tensor_type name shp) w
  = Result (match fst (fw unit (MakeTensorType name shp) w) with
            | inl e => inl e
            | inr _ => inr {| tt_name := name; tt_shape := shp |}
            end)
           [Called (MakeTensorType name shp) (fst (fw unit (MakeTensorType name shp) w))]
           (snd (fw unit (MakeTensorType name shp) w)).
Proof.
  unfold tensor_type, invoke. cbn.
  destruct (fst (fw unit (MakeTensorType name shp) w)); reflexivity.
Qed.

(** A run of the input loop makes the tensor types of [coreml_inputs] in
    order, and stops at the first one the constructor refuses. *)
Lemma run_coreml_inputs_loop (items : list (string * shape)) (p : string)
      (acc : list TensorType) (w : W) :
  (outcome (run sys fw (Converter.coreml_inputs_loop items p acc) w)
   = inr (acc ++ Converter.coreml_inputs items p) /\
   trace (run sys fw (Converter.coreml_inputs_loop items p acc) w)
   = constructions (Converter.coreml_inputs items p)) \/
  (exists e done t rest,
     Converter.coreml_inputs items p = done ++ t :: rest /\
     outcome (run sys fw (Converter.coreml_inputs_loop items p acc) w) = inl e /\
     trace (run sys fw (Converter.coreml_inputs_loop items p acc) w)
     = constructions done ++ [Called (MakeTensorType (tt_name t) (tt_shape t)) (inl e)]).
Proof.
  rewrite coreml_inputs_flat_map.
  revert acc w. induction items as [|[k shp] items IH]; intros acc w;
    cbn [Converter.coreml_inputs_loop flat_map fst].
  - left. cbn. rewrite app_nil_r. auto.
  - destruct (String.eqb k p); cbn [app]; [apply IH|].
    rewrite run_bind, run_tensor_type. unfold then_. cbn [outcome trace final].
    destruct (fw unit (MakeTensorType (strip_port k) shp) w) as [[e|[]] w'];
      cbn [fst snd outcome trace final].
    + right. exists e, [], (declare (k, shp)).
      eexists. repeat split; reflexivity.
    + destruct (IH (acc ++ [{| tt_name := strip_port k; tt_shape := shp |}]) w')
        as [[Ho Ht]|(e & done & t & rest & Hts & Ho & Ht)].
      * left. rewrite Ho, Ht, <- app_assoc. split; reflexivity.
      * right. exists e, (declare (k, shp) :: done), t, rest.
        rewrite Hts, Ho, Ht. repeat split; reflexivity.
Qed.

(** The same for the comprehension that makes the outputs. *)
Lemma run_coreml_outputs_comprehension (names : list string) (w : W) :
  (outcome (run sys fw (Converter.coreml_outputs_comprehension names) w)
   = inr (Converter.coreml_outputs names) /\
   trace (run sys fw (Converter.coreml_outputs_comprehension names) w)
   = constructions (Converter.coreml_outputs names)) \/
  (exists e done t rest,
     Converter.coreml_outputs names = done ++ t :: rest /\
     outcome (run sys fw (Converter.coreml_outputs_comprehension names) w) = inl e /\
     trace (run sys fw (Converter.coreml_outputs_comprehension names) w)
     = constructions done ++ [Called (MakeTensorType (tt_name t) (tt_shape t)) (inl e)]).
Proof.
  unfold Converter.coreml_outputs_comprehension, Converter.coreml_outputs.
  revert w. induction names as [|name names IH]; intros w; cbn [comprehension map].
  - left. cbn. auto.
  - rewrite run_bind, run_tensor_type. unfold then_. cbn [outcome trace final].
    destruct (fw unit (MakeTensorType name None) w) as [[e|[]] w'];
      cbn [fst snd outcome trace final].
    + right. exists e, [], {| tt_name := name; tt_shape := None |}.
      eexists. repeat split; reflexivity.
    + rewrite run_bind. unfold then_.
      destruct (IH w') as [[Ho Ht]|(e & done & t & rest & Hts & Ho & Ht)].
      * left. rewrite Ho, Ht. cbn. rewrite app_nil_r. split; reflexivity.
      * right. exists e, ({| tt_name := name; tt_shape := None |} :: done), t, rest.
        rewrite Hts, Ho, Ht. repeat split; reflexivity.
Qed.

(** What the readers see in the making of tensor types. *)
Lemma reads_no_constructions {A} (f : entry -> list A) (ts : list TensorType) :
  (forall name shp, f (Called (MakeTensorType name shp) (inr tt)) = []) ->
  flat_map f (constructions ts) = [].
Proof.
  intros Hf. unfold constructions.
  induction ts as [|t ts IH]; cbn [map flat_map]; [reflexivity|].
  rewrite Hf, IH. reflexivity.
Qed.

Lemma stdout_constructions (ts : list TensorType) : stdout (constructions ts) = [].
Proof. apply reads_no_constructions. reflexivity. Qed.

Lemma steps_constructions (ts : list TensorType) :
  flat_map stepped (constructions ts) = repeat STensorType (length ts).
Proof.
  unfold constructions.
  induction ts as [|t ts IH]; cbn [map flat_map length repeat]; [reflexivity|].
  rewrite IH. reflexivity.
Qed.

Lemma calls_constructions (ts : list TensorType) :
  filter is_call (constructions ts) = constructions ts.
Proof.
  unfold constructions.
  induction ts as [|t ts IH]; cbn [map filter is_call]; [reflexivity|].
  rewrite IH. reflexivity.
Qed.

End Theory.

(** ** Loops that print *)

Section Printing.
Context {W : Type}.
Variable sys : forall X, effect X -> W -> X * W.
Variable fw : forall X, call X -> W -> (exn + X) * W.

Lemma run_for_print_trace {A} (l : list A) (f : A -> line) (w : W) :
  outcome (run sys fw (for_ l (fun x => print (f x))) w) = inr tt /\
  trace (run sys fw (for_ l (fun x => print (f x))) w) = prints (map f l).
Proof.
  revert w. induction l as [|x l IH]; intros w; cbn [for_ map].
  - cbn. auto.
  - rewrite run_bind, run_print. unfold then_. cbn [outcome trace final].
    destruct (IH (snd (sys unit (Print (f x)) w))) as (Ho & Ht).
    rewrite Ho, Ht. auto.
Qed.

Lemma prints_app (l1 l2 : list line) : prints (l1 ++ l2) = prints l1 ++ prints l2.
Proof. apply map_app. Qed.

Lemma stdout_prints (ls : list line) : stdout (prints ls) = ls.
Proof.
  induction ls as [|l ls IH]; [reflexivity|]. cbn. f_equal. exact IH.
Qed.

Lemma filter_nothing {A} (g : A -> bool) (l : list A) :
  Forall (fun x => g x = false) l -> filter g l = [].
Proof.
  induction 1 as [|x l Hx _ IH]; cbn; [reflexivity|]. now rewrite Hx.
Qed.

Lemma calls_prints (ls : list line) : calls (prints ls) = [].
Proof.
  induction ls as [|l ls IH]; [reflexivity|]. exact IH.
Qed.

(** A reader that sees nothing in a printed line sees nothing in a run of
    printed lines. *)
Lemma reads_no_prints {A} (f : entry -> list A) (ls : list line) :
  (forall l, f (Did (Print l) tt) = []) -> flat_map f (prints ls) = [].
Proof.
  intros Hf. unfold prints. induction ls as [|l ls IH]; [reflexivity|].
  cbn [map flat_map]. rewrite Hf, IH. reflexivity.
Qed.

Lemma run_print_operation_trace (op : operation) (w : W) :
  outcome (run sys fw (Inspector.print_operation op) w) = inr tt /\
  trace (run sys fw (Inspector.print_operation op) w) = prints (operation_listing op).
Proof.
  unfold Inspector.print_operation, operation_listing.
  rewrite run_bind, run_print. unfold then_. cbn [outcome trace final].
  destruct (0 <? length (op_outputs op))%nat.
  - rewrite run_bind, run_print. unfold then_. cbn [outcome trace final].
    match goal with |- context [run sys fw (for_ ?l ?b) ?w] =>
      destruct (run_for_print_trace l Inspector.tensor_line w) as (Ho & Ht) end.
    rewrite Ho, Ht. auto.
  - cbn. auto.
Qed.

Lemma run_print_placeholder_trace (op : operation) (w : W) :
  outcome (run sys fw (Inspector.print_placeholder op) w) = inr tt /\
  trace (run sys fw (Inspector.print_placeholder op) w) = prints (placeholder_listing op).
Proof.
  unfold Inspector.print_placeholder, placeholder_listing.
  rewrite run_bind, run_print. unfold then_. cbn [outcome trace final].
  match goal with |- context [run sys fw (for_ ?l ?b) ?w] =>
    destruct (run_for_print_trace l placeholder_tensor_line w) as (Ho & Ht) end.
  unfold placeholder_tensor_line in Ho, Ht. rewrite Ho, Ht. auto.
Qed.

(** A loop whose body prints the lines [g x]. *)
Lemma run_for_trace {A} (body : A -> prog unit) (g : A -> list line) (l : list A) :
  (forall x w, outcome (run sys fw (body x) w) = inr tt /\
               trace (run sys fw (body x) w) = prints (g x)) ->
  forall w, outcome (run sys fw (for_ l body) w) = inr tt /\
            trace (run sys fw (for_ l body) w) = prints (flat_map g l).
Proof.
  intros Hbody. induction l as [|x l IH]; intros w; cbn [for_ flat_map].
  - cbn. auto.
  - rewrite run_bind. unfold then_.
    destruct (Hbody x w) as (Ho & Ht). rewrite Ho, Ht.
    destruct (IH (final (run sys fw (body x) w))) as (Ho' & Ht').
    cbn [outcome trace]. rewrite Ho', Ht', prints_app. auto.
Qed.

Lemma run_print_hints (w : W) :
  outcome (run sys fw Inspector.print_hints w) = inr tt /\
  trace (run sys fw Inspector.print_hints w) = prints hint_lines.
Proof.
  unfold Inspector.print_hints. rewrite !run_bind, !run_print. unfold then_.
  cbn.
  repeat match goal with |- context [fst (sys unit ?a ?w)] =>
    destruct (fst (sys unit a w)) end.
  auto.
Qed.

End Printing.


(** Walks a script's tree to establish [always]. *)
Ltac walk :=
  repeat first
    [ apply always_ret
    | apply always_raise
    | apply always_print
    | apply always_invoke; intro
    | apply always_restore; intros ? ?
    | apply always_tensor_type; intro
    | apply always_coreml_inputs_loop; intros ? ? ?
    | apply always_comprehension; intro
    | apply always_for; intro
    | apply always_with; [ | intro | intro ]
    | apply always_finally
    | apply always_bind; [ | intro ]
    | apply always_do; [ intro | intro ]
    | apply always_call; [ intro | intros [?|?] ]
    | match goal with
      | |- always _ (if ?b then _ else _) => destruct b
      | |- always _ (match ?l with [] => _ | _ :: _ => _ end) => destruct l
      | |- always _ (match ?r with inl _ => _ | inr _ => _ end) => destruct r
      end ];
  cbn; auto.

(** Finishes the goals [walk] leaves about single operations. *)
Ltac settle :=
  cbn; intros;
  repeat match goal with
    | H : _ \/ _ |- _ => destruct H
    | H : False |- _ => destruct H
    | H : _ /\ _ |- _ => destruct H
    end;
  subst; auto.

(** Walks a script's tree to establish [propagating]. *)
Ltac propagate :=
  repeat first
    [ apply propagating_invoke | apply propagating_print
    | apply propagating_ret | apply propagating_raise
    | apply propagating_restore | apply propagating_tensor_type
    | apply propagating_coreml_inputs_loop
    | apply propagating_comprehension; intro
    | apply propagating_for; intro
    | apply propagating_with; [ | intro ]
    | apply propagating_bind; [ | intro ]
    | match goal with
      | |- propagating (if ?b then _ else _) => destruct b
      | |- propagating (match ?l with [] => _ | _ :: _ => _ end) => destruct l
      end ].

(** ** Running a script operation by operation *)

(** Runs the next operation, whatever its answer; where an assumption on
    the library fixes the answer, that answer is taken. *)
Ltac next sys fw :=
  match goal with
  | |- context [fw ?X ?c ?w] =>
      is_var w; destruct (fw X c w) as [[?e|?x] ?w] eqn:?E; cbn [fst snd];
      try match goal with
        | H : no_checkpoint _ _, E : fw _ (LatestCheckpoint _) ?w0 = _ |- _ =>
            let H' := fresh in
            pose proof (H w0) as H'; rewrite E in H'; cbn in H';
            first [discriminate H' | injection H' as ->]
        | H : graph_holds _ _, E : fw _ (GetOperations ?g) ?w0 = _ |- _ =>
            let H' := fresh in
            pose proof (H g w0) as H'; rewrite E in H'; cbn in H';
            first [discriminate H' | injection H' as ->]
        end
  | |- context [sys ?X ?a ?w] =>
      is_var w; destruct (sys X a w) as [?x ?w] eqn:?E; cbn [fst snd]
  end.

(** Splits on the truth value of [latest_ckpt], on whether there is a
    saver, and on whether there is a placeholder. *)
Ltac branch :=
  match goal with
  | |- context [truthy ?v] =>
      is_var v; let s := fresh "s" in
      destruct v as [s|]; unfold truthy;
      [destruct (String.eqb s EmptyString) eqn:?E|]
  | |- context [restore ?sv _ _] =>
      is_var sv; destruct sv as [?sv|]; unfold restore
  | |- context [match filter Inspector.is_placeholder ?ops with [] => _ | _ :: _ => _ end] =>
      destruct (filter Inspector.is_placeholder ops) eqn:?F
  end.

(** Runs a [with] block's exit, or a whole loop. *)
Ltac loop sys fw :=
  match goal with
  | |- context [run sys fw (finally_ ?p ?a) ?w] => rewrite (run_finally sys fw p a w)
  | |- context [run sys fw (bind (for_ ?l ?b) ?k) ?w] =>
      rewrite (run_bind sys fw (for_ l b) k w); unfold then_
  | |- context [run sys fw (bind (Converter.coreml_inputs_loop ?i ?p ?acc) ?k) ?w] =>
      rewrite (run_bind sys fw (Converter.coreml_inputs_loop i p acc) k w); unfold then_
  | |- context [run sys fw (bind (Converter.coreml_outputs_comprehension ?l) ?k) ?w] =>
      rewrite (run_bind sys fw (Converter.coreml_outputs_comprehension l) k w); unfold then_
  | |- context [run sys fw (Converter.coreml_inputs_loop ?i ?p ?acc) ?w] =>
      destruct (run_coreml_inputs_loop sys fw i p acc w)
        as [[?Ho ?Ht]|(?e & ?made & ?t & ?rest & ?Hts & ?Ho & ?Ht)];
      rewrite ?Ho, ?Ht; clear Ho Ht;
      try (generalize (final (run sys fw (Converter.coreml_inputs_loop i p acc) w)); intro)
  | |- context [run sys fw (Converter.coreml_outputs_comprehension ?l) ?w] =>
      destruct (run_coreml_outputs_comprehension sys fw l w)
        as [[?Ho ?Ht]|(?e & ?made & ?t & ?rest & ?Hts & ?Ho & ?Ht)];
      rewrite ?Ho, ?Ht; clear Ho Ht;
      try (generalize (final (run sys fw (Converter.coreml_outputs_comprehension l) w)); intro)
  | |- context [run sys fw (for_ ?l Inspector.print_operation) ?w] =>
      let Ho := fresh in let Ht := fresh in
      destruct (run_for_trace sys fw Inspector.print_operation operation_listing l
                  (run_print_operation_trace sys fw) w) as (Ho & Ht);
      rewrite ?Ho, ?Ht; clear Ho Ht;
      try (generalize (final (run sys fw (for_ l Inspector.print_operation) w)); intro)
  | |- context [run sys fw (for_ ?l Inspector.print_placeholder) ?w] =>
      let Ho := fresh in let Ht := fresh in
      destruct (run_for_trace sys fw Inspector.print_placeholder placeholder_listing l
                  (run_print_placeholder_trace sys fw) w) as (Ho & Ht);
      rewrite ?Ho, ?Ht; clear Ho Ht;
      try (generalize (final (run sys fw (for_ l Inspector.print_placeholder) w)); intro)
  | |- context [run sys fw (for_ ?l ?b) ?w] =>
      match b with
      | (fun x => print (@?f x)) =>
          let H := fresh in
          pose proof (run_for_print_trace sys fw l f w) as H; cbn beta in H;
          let Ho := fresh in let Ht := fresh in
          destruct H as (Ho & Ht); rewrite ?Ho, ?Ht; clear Ho Ht;
          try (generalize (final (run sys fw (for_ l b) w)); intro)
      end
  end.

Ltac simp :=
  cbn -[String.append path_join for_ prints constructions restore
        Converter.coreml_inputs_loop Converter.coreml_outputs_comprehension
        Converter.coreml_inputs Converter.coreml_outputs
        Converter.output_node_names_for_freezing
        operation_listing placeholder_listing
        steps failures entered left restores opened lookups specs stdout calls
        listings attempts imports import_answers made_constants
        declared_inputs declared_outputs frozen_nodes written frozen_graphs
        serializations conversions saved described artifact_outputs restorations
        refusals].

Ltac execute sys fw := repeat (first [next sys fw | branch | loop sys fw]; simp).

(** Runs the script of the goal from its first operation to its last, along
    every path. *)
Ltac start :=
  match goal with
  | |- context [run ?sys ?fw _ _] =>
      unfold Converter.convert_tf_checkpoint_to_coreml,
        Inspector.inspect_checkpoint_model, Inspector.print_graph, with_, invoke;
      simp; execute sys fw;
      repeat match goal with x : unit |- _ => destruct x end
  end.

(** Evaluates the readers on the trace a run left. *)
Ltac observe :=
  unfold steps, failures, entered, left, restores, opened, lookups, specs, stdout,
    calls, listings, attempts, imports, import_answers, made_constants,
    declared_inputs, declared_outputs, frozen_nodes, written, frozen_graphs,
    serializations, conversions, saved, artifact_outputs, described, restorations,
    refusals;
  repeat (progress (cbn [flat_map app filter is_attempt is_call];
                    rewrite ?flat_map_app, ?filter_app));
  repeat match goal with
    | |- context [flat_map ?f (prints ?ls)] =>
        rewrite (reads_no_prints f ls) by (intro; reflexivity)
    | |- context [flat_map ?f (constructions ?ts)] =>
        rewrite (reads_no_constructions f ts) by (intros; reflexivity)
    end;
  rewrite ?steps_constructions, ?calls_constructions;
  cbn -[String.append path_join prints constructions repeat
        Converter.coreml_inputs Converter.coreml_outputs
        Converter.output_node_names_for_freezing
        operation_listing placeholder_listing].

(** Closes a goal about an explicit trace. *)
Ltac close :=
  repeat match goal with
    | |- _ /\ _ => split
    | |- _ <-> _ => split
    | |- exists _, _ => eexists
    | H : _ /\ _ |- _ => destruct H
    | H : _ \/ _ |- _ => destruct H
    | H : False |- _ => destruct H
    | |- _ -> _ => intro
    end;
  subst; try discriminate; try reflexivity; try congruence; auto.

(** * Runs of the scripts, operation by operation *)

Section Traces.
Context {W : Type}.
Variable sys : forall X, effect X -> W -> X * W.
Variable fw : forall X, call X -> W -> (exn + X) * W.

Variables (checkpoint_dir meta_filename output_mlmodel_path : string).
Variable input_tensor_map_shapes : list (string * shape).
Variable output_tensor_names : list string.
Variable phase_train_tensor_name : string.

Local Abbreviation conversion :=
  (Converter.convert_tf_checkpoint_to_coreml checkpoint_dir meta_filename
     output_mlmodel_path input_tensor_map_shapes output_tensor_names
     phase_train_tensor_name).

Local Abbreviation inspection :=
  (Inspector.inspect_checkpoint_model checkpoint_dir meta_filename).

(** A run of the Converter that ends normally, operation by operation. *)
Lemma converter_success_trace (w : W) :
  outcome (run sys fw conversion w) = inr tt ->
  exists g sess c sv ckpt gd fgd f data m sp sp',
    ckpt <> EmptyString /\
    trace (run sys fw conversion w)
    = [Called DisableEagerExecution (inr tt);
       Called Graph (inr g);
       Called (AsDefault g) (inr tt);
       Called (Session g) (inr sess);
       Called (Constant false tf_bool "phase_train_const_val") (inr c);
       Did (Print [Lit "Loading meta graph: ";
                   Str (path_join checkpoint_dir meta_filename)]) tt;
       Called (ImportMetaGraph (path_join checkpoint_dir meta_filename) true
                 (Some [(phase_train_tensor_name, c)])) (inr (Some sv));
       Called (LatestCheckpoint checkpoint_dir) (inr (Some ckpt));
       Did (Print [Lit "Restoring weights from: "; Str ckpt]) tt;
       Called (Restore sv sess ckpt) (inr tt);
       Did (Print [Lit "Weights restored successfully."]) tt;
       Did (Print [Lit "Freezing graph with output nodes: ";
                   Names (map strip_port output_tensor_names)]) tt;
       Called (SessGraphDef sess) (inr gd);
       Called (ConvertVariablesToConstants sess gd (map strip_port output_tensor_names))
              (inr fgd);
       Called (GFile (path_join checkpoint_dir "frozen_model.pb") "wb") (inr f);
       Called (SerializeToString fgd) (inr data);
       Called (Write f data) (inr tt);
       Did (Leave (CtxFile f)) tt;
       Did (Print [Lit "Frozen graph saved to: ";
                   Str (path_join checkpoint_dir "frozen_model.pb")]) tt;
       Did (Print [Lit "Converting to Core ML..."]) tt]
      ++ constructions (Converter.coreml_inputs input_tensor_map_shapes
                                                phase_train_tensor_name)
      ++ constructions (Converter.coreml_outputs output_tensor_names)
      ++ [Called (CtConvert fgd "tensorflow"
                    (Converter.coreml_outputs output_tensor_names)
                    (Converter.coreml_inputs input_tensor_map_shapes
                                             phase_train_tensor_name)
                    macOS12) (inr m);
          Called (Save m output_mlmodel_path) (inr tt);
          Did (Print [Lit "Core ML model saved to: "; Str output_mlmodel_path]) tt;
          Did (Print [Lit (Converter.newline ++ "Conversion Complete!")]) tt;
          Did (Print [Lit "Input details for Core ML model:"]) tt;
          Called (GetSpec m) (inr sp)]
      ++ prints (map feature_line (description_input sp))
      ++ [Did (Print [Lit "Output details for Core ML model:"]) tt;
          Called (GetSpec m) (inr sp')]
      ++ prints (map feature_line (description_output sp'))
      ++ [Did (Leave (CtxSession sess)) tt; Did (Leave (CtxDefault g)) tt].
Proof.
  start.
  all: try discriminate.
  intros _. do 12 eexists. split; cycle 1.
  - unfold Converter.output_node_names_for_freezing.
    repeat (progress (cbn [app]; rewrite <- ?app_assoc)). reflexivity.
  - match goal with E : String.eqb ?s _ = false |- ?s <> _ =>
      intros ->; discriminate E end.
Qed.

(** What a run that ends normally wrote to the frozen-graph file. *)
Lemma converter_success_written (w : W) :
  outcome (run sys fw conversion w) = inr tt ->
  exists fgd data,
    frozen_graphs (trace (run sys fw conversion w)) = [inr fgd] /\
    serializations (trace (run sys fw conversion w)) = [(fgd, inr data)] /\
    written (trace (run sys fw conversion w)) = [data].
Proof.
  intros Hok.
  destruct (converter_success_trace w Hok)
    as (g & sess & c & sv & ckpt & gd & fgd & f & data & m & sp & sp' & Hckpt & Ht).
  exists fgd, data. rewrite Ht. observe. repeat split; reflexivity.
Qed.










(** A run of the Inspector in which the load returned no saver and a
    checkpoint was found. *)
Lemma inspect_missing_saver_trace (w : W) (ckpt : string) :
  import_answers (trace (run sys fw inspection w)) = [inr None] ->
  lookups (trace (run sys fw inspection w)) = [inr (Some ckpt)] ->
  ckpt <> EmptyString ->
  exists g sess,
    outcome (run sys fw inspection w)
    = inl (AttributeError "'NoneType' object has no attribute 'restore'") /\
    trace (run sys fw inspection w)
    = [Called Graph (inr g);
       Called (AsDefault g) (inr tt);
       Called (Session g) (inr sess);
       Called (ImportMetaGraph (path_join checkpoint_dir meta_filename) true None)
              (inr None);
       Called (LatestCheckpoint checkpoint_dir) (inr (Some ckpt));
       Did (Print [Lit "Restoring weights from: "; Str ckpt]) tt;
       Did (Leave (CtxSession sess)) tt;
       Did (Leave (CtxDefault g)) tt].
Proof.
  start; observe.
  all: intros Hi Hl Hne; try discriminate Hi; try discriminate Hl.
  all: injection Hl as <-.
  all: try (match goal with E : String.eqb _ _ = true |- _ =>
              apply String.eqb_eq in E; contradiction end).
  all: do 2 eexists; split; reflexivity.
Qed.

Lemma path_join_relative (a b : string) :
  startswith_sep b = false ->
  path_join a b = (a ++ b)%string \/ path_join a b = (a ++ "/" ++ b)%string.
Proof.
  intros Hb. unfold path_join. rewrite Hb.
  destruct (String.eqb a EmptyString || endswith_sep a)%bool; auto.
Qed.

End Traces.

(** * The scripts, against any library *)

Section Scripts.
Context {W : Type}.
Variable sys : forall X, effect X -> W -> X * W.
Variable fw : forall X, call X -> W -> (exn + X) * W.

Variables (checkpoint_dir meta_filename output_mlmodel_path : string).
Variable input_tensor_map_shapes : list (string * shape).
Variable output_tensor_names : list string.
Variable phase_train_tensor_name : string.

(** One call of the Converter, and one of the Inspector. *)
Let converter : prog unit :=
  Converter.convert_tf_checkpoint_to_coreml checkpoint_dir meta_filename
    output_mlmodel_path input_tensor_map_shapes output_tensor_names
    phase_train_tensor_name.

Let inspector : prog unit :=
  Inspector.inspect_checkpoint_model checkpoint_dir meta_filename.

(** ** Converter *)

Lemma converter_propagating : propagating converter.
Proof.
  unfold converter, Converter.convert_tf_checkpoint_to_coreml,
    Converter.coreml_outputs_comprehension.
  propagate.
Qed.

(** C1, as the code has it.  In a directory where no checkpoint can be
    located the Converter fails and never reaches freezing, the frozen-graph
    file, conversion or saving.  The failure is the [ValueError] of the
    script whenever the meta graph was loaded; the graph is loaded first,
    and what that call raises comes out instead. *)
Theorem convert_without_checkpoint (w : W) :
  no_checkpoint fw checkpoint_dir ->
  attempts (trace (run sys fw converter w)) = [] /\
  (exists e, outcome (run sys fw converter w) = inl e) /\
  ((exists sv, In (inr sv) (import_answers (trace (run sys fw converter w)))) ->
   outcome (run sys fw converter w)
   = inl (ValueError ("No checkpoint found in directory: " ++ checkpoint_dir))).
Proof.
  intros Hno. unfold converter. start; observe.
  all: repeat split; eauto.
  all: intros [sv Hsv]; cbn in Hsv; intuition discriminate.
Qed.

(** C2, as the code has it.  The output names the artifact declares are
    those of the description of the model that [ct.convert] returned, and
    the Converter reports them as they are.  What it asks [ct.convert] for
    are the configured names unchanged, port suffix included; the names with
    the suffix stripped are the output nodes given to the freezing step. *)
Theorem artifact_outputs_from_converter (w : W) :
  (forall names, In names (frozen_nodes (trace (run sys fw converter w))) ->
     names = map strip_port output_tensor_names) /\
  (forall outs, In outs (declared_outputs (trace (run sys fw converter w))) ->
     map tt_name outs = output_tensor_names) /\
  (outcome (run sys fw converter w) = inr tt ->
   exists m sp sp',
     conversions (trace (run sys fw converter w))
     = [(map (fun name => {| tt_name := name; tt_shape := None |}) output_tensor_names,
         inr m)] /\
     saved (trace (run sys fw converter w)) = [(m, output_mlmodel_path)] /\
     described (trace (run sys fw converter w)) = [(m, inr sp); (m, inr sp')] /\
     artifact_outputs (trace (run sys fw converter w))
     = [map spec_name (description_output sp); map spec_name (description_output sp')] /\
     exists progress,
       stdout (trace (run sys fw converter w))
       = progress ++ [Lit "Output details for Core ML model:"]
         :: map (fun out => [Lit "  Name: "; Str (spec_name out);
                             Lit ", Type: "; Proto (spec_type out)])
                (description_output sp')).
Proof.
  split; [|split].
  - unfold converter. start; observe.
    all: intros names Hin; repeat (destruct Hin as [Hin|Hin]); try contradiction.
    all: subst names; reflexivity.
  - unfold converter. start; observe.
    all: intros outs Hin; repeat (destruct Hin as [Hin|Hin]); try contradiction.
    all: subst outs; unfold Converter.coreml_outputs; rewrite map_map; apply map_id.
  - intros Hok.
    destruct (converter_success_trace sys fw _ _ _ _ _ _ w Hok)
      as (g & sess & c & sv & ckpt & gd & fgd & f & data & m & sp & sp' & Hckpt & Ht).
    exists m, sp, sp'. unfold converter. rewrite Ht.
    repeat split; try (observe; reflexivity).
    rewrite !stdout_app, !stdout_prints, !stdout_constructions.
    cbn -[String.append path_join]. rewrite app_nil_r.
    eexists (_ :: _ :: _ :: _ :: _ :: _ :: _ :: _ :: _ :: _). cbn [app]. reflexivity.
Qed.

(** C3.  The inputs declared to the model converter are, in the order of
    the input map, one tensor type per entry whose key is not the control
    tensor, and none for an entry whose key is. *)
Theorem declared_inputs_exclude_control_tensor (w : W) (ins : list TensorType) :
  In ins (declared_inputs (trace (run sys fw converter w))) ->
  ins = flat_map
          (fun item : string * shape =>
             if String.eqb (fst item) phase_train_tensor_name then []
             else [{| tt_name := strip_port (fst item); tt_shape := snd item |}])
          input_tensor_map_shapes.
Proof.
  unfold converter. start; observe.
  all: intros Hin; repeat (destruct Hin as [Hin|Hin]); try contradiction.
  all: subst ins; apply coreml_inputs_flat_map.
Qed.

(** C4.  Every run of the Converter loads the graph definition once, with
    [clear_devices=True] and an input map that puts, under the control
    tensor's name, the tensor that [tf.constant(False, dtype=tf.bool)]
    returned.  The only runs that load nothing are those in which one of
    the five calls before the load failed; they end with that failure. *)
Theorem loads_with_phase_train_off (w : W) :
  (exists c,
     made_constants (trace (run sys fw converter w))
     = [(false, tf_bool, "phase_train_const_val", c)] /\
     imports (trace (run sys fw converter w))
     = [(path_join checkpoint_dir meta_filename, true,
         Some [(phase_train_tensor_name, c)])]) \/
  (exists e rest,
     outcome (run sys fw converter w) = inl e /\
     failures (trace (run sys fw converter w)) = [e] /\
     steps (trace (run sys fw converter w)) ++ rest
     = [SDisableEagerExecution; SGraph; SAsDefault; SSession; SConstant] /\
     imports (trace (run sys fw converter w)) = []).
Proof.
  unfold converter. start; observe.
  all: try (left; eexists; split; reflexivity).
  all: right; do 2 eexists; repeat split; reflexivity.
Qed.

(** C8.  An exception raised by a library call comes out of the Converter
    as it is, and it is the only failure of the run. *)
Theorem framework_errors_propagate (w : W) (e : exn) :
  In e (failures (trace (run sys fw converter w))) ->
  outcome (run sys fw converter w) = inl e /\
  failures (trace (run sys fw converter w)) = [e].
Proof.
  apply propagating_run. exact converter_propagating.
Qed.

(** C9, as the code has it.  In a run that ends normally the frozen-graph
    file receives, once, exactly the bytes that [SerializeToString] returned
    for the graph that freezing returned.  Two such runs therefore write the
    same bytes exactly when the serialization answered the same bytes in
    both; the Converter takes no step of its own towards that. *)
Theorem frozen_graph_as_serialized (w1 w2 : W) :
  outcome (run sys fw converter w1) = inr tt ->
  outcome (run sys fw converter w2) = inr tt ->
  exists fgd1 data1 fgd2 data2,
    (frozen_graphs (trace (run sys fw converter w1)) = [inr fgd1] /\
     serializations (trace (run sys fw converter w1)) = [(fgd1, inr data1)] /\
     written (trace (run sys fw converter w1)) = [data1]) /\
    (frozen_graphs (trace (run sys fw converter w2)) = [inr fgd2] /\
     serializations (trace (run sys fw converter w2)) = [(fgd2, inr data2)] /\
     written (trace (run sys fw converter w2)) = [data2]) /\
    (written (trace (run sys fw converter w1)) = written (trace (run sys fw converter w2))
     <-> data1 = data2).
Proof.
  intros Hok1 Hok2.
  destruct (converter_success_written sys fw _ _ _ _ _ _ w1 Hok1)
    as (fgd1 & data1 & Hf1 & Hs1 & Hw1).
  destruct (converter_success_written sys fw _ _ _ _ _ _ w2 Hok2)
    as (fgd2 & data2 & Hf2 & Hs2 & Hw2).
  exists fgd1, data1, fgd2, data2. unfold converter.
  split; [auto|]. split; [auto|].
  rewrite Hw1, Hw2. split; [intros Heq; injection Heq; auto|intros ->; reflexivity].
Qed.

(** ** Inspector *)

Lemma inspector_propagating : propagating inspector.
Proof.
  unfold inspector, Inspector.inspect_checkpoint_model, Inspector.print_graph,
    Inspector.print_hints, Inspector.print_operation, Inspector.print_placeholder.
  propagate.
Qed.


(** C6.  When [os.path.exists] answers that the meta file is not there,
    the main block prints the error and ends normally, without a single
    library call: [inspect_checkpoint_model] is not entered. *)
Theorem missing_meta_file_aborts (w : W) :
  fst (sys _ (PathExists (path_join checkpoint_dir meta_filename)) w) = false ->
  outcome (run sys fw (Inspector.main_with checkpoint_dir meta_filename) w) = inr tt /\
  calls (trace (run sys fw (Inspector.main_with checkpoint_dir meta_filename) w)) = [] /\
  stdout (trace (run sys fw (Inspector.main_with checkpoint_dir meta_filename) w))
  = [[Lit "Error: Meta graph file not found at ";
      Str (path_join checkpoint_dir meta_filename)]].
Proof.
  intros Hmissing. unfold Inspector.main_with, print, perform.
  cbn -[String.append path_join Inspector.inspect_checkpoint_model].
  rewrite Hmissing. cbn -[String.append path_join].
  destruct (fst (sys unit _ _)). auto.
Qed.

(** C7.  When a library call fails during the inspection, the main block
    ends normally, and the last two things it does are to print the
    exception after its message text and to print the traceback. *)
Theorem inspection_failure_reported (w : W) (e : exn) :
  In e (failures (trace (run sys fw (Inspector.main_with checkpoint_dir meta_filename) w))) ->
  outcome (run sys fw (Inspector.main_with checkpoint_dir meta_filename) w) = inr tt /\
  exists pre,
    trace (run sys fw (Inspector.main_with checkpoint_dir meta_filename) w)
    = pre ++ [Did (Print [Lit "An error occurred during model inspection: "; Err e]) tt;
              Did (PrintExc e) tt].
Proof.
  unfold Inspector.main_with, print, perform.
  cbn -[String.append path_join Inspector.inspect_checkpoint_model try_except].
  destruct (sys bool _ w) as [found w0]. cbn [fst snd].
  destruct found;
    cbn -[String.append path_join Inspector.inspect_checkpoint_model try_except].
  - rewrite run_try_except.
    pose proof (propagating_run sys fw _ inspector_propagating w0 e) as Hp.
    unfold inspector in Hp.
    destruct (outcome (run sys fw (Inspector.inspect_checkpoint_model checkpoint_dir meta_filename) w0))
      as [e0|[]] eqn:Ho.
    + cbn -[Inspector.inspect_checkpoint_model].
      rewrite failures_app. cbn -[Inspector.inspect_checkpoint_model].
      rewrite app_nil_r. intros He. destruct (Hp He) as [Heq _].
      injection Heq as ->.
      repeat match goal with |- context [fst (sys unit ?a ?w)] =>
        destruct (fst (sys unit a w)) end.
      split; [reflexivity|]. eexists. apply app_comm_cons.
    + intros He. destruct (Hp He) as [Heq _]. discriminate Heq.
  - contradiction.
Qed.

(** C10.  When the meta graph loads and no checkpoint can be located,
    [inspect_checkpoint_model] prints the error line and nothing else, asks
    for no operation, and returns normally. *)
Theorem inspect_without_checkpoint (w : W) :
  no_checkpoint fw checkpoint_dir ->
  (exists sv, In (inr sv) (import_answers (trace (run sys fw inspector w)))) ->
  outcome (run sys fw inspector w) = inr tt /\
  stdout (trace (run sys fw inspector w))
  = [[Lit "Error: No checkpoint found in directory: "; Str checkpoint_dir]] /\
  listings (trace (run sys fw inspector w)) = [].
Proof.
  intros Hno. unfold inspector. start; observe.
  all: intros [sv Hsv]; cbn in Hsv; try (intuition discriminate).
  all: auto.
Qed.

End Scripts.

(** * Further properties of the scripts *)

(** ** Port suffixes *)

Lemma strip_port_cons (c : ascii) (s : string) :
  strip_port (String c s)
  = if Ascii.eqb c ":" then EmptyString else String c (strip_port s).
Proof.
  unfold strip_port. cbn [split].
  destruct (Ascii.eqb c ":"); [reflexivity|].
  destruct (split ":" s); reflexivity.
Qed.

Lemma strip_port_colon_free (name : string) : colon_free (strip_port name) = true.
Proof.
  induction name as [|c s IH]; [reflexivity|].
  rewrite strip_port_cons. destruct (Ascii.eqb c ":") eqn:Hc; [reflexivity|].
  cbn [colon_free]. rewrite Hc, IH. reflexivity.
Qed.

(** X1.  [name.split(':')[0]] holds no colon, and taking it a second time
    changes nothing. *)
Theorem strip_port_no_colon (name : string) :
  colon_free (strip_port name) = true /\
  strip_port (strip_port name) = strip_port name.
Proof.
  split; [apply strip_port_colon_free|].
  induction name as [|c s IH]; [reflexivity|].
  rewrite strip_port_cons. destruct (Ascii.eqb c ":") eqn:Hc; [reflexivity|].
  rewrite strip_port_cons, Hc, IH. reflexivity.
Qed.

(** X2.  For a node name without a colon, [name.split(':')[0]] undoes
    attaching any port, and leaves the bare name as it is. *)
Theorem strip_port_of_node_name (node port : string) :
  colon_free node = true ->
  strip_port (node ++ ":" ++ port) = node /\ strip_port node = node.
Proof.
  induction node as [|c s IH]; intros Hfree.
  - split; reflexivity.
  - cbn [colon_free] in Hfree. apply andb_true_iff in Hfree.
    destruct Hfree as [Hc Hs]. apply negb_true_iff in Hc.
    destruct (IH Hs) as [IH1 IH2].
    change (String c s ++ ":" ++ port)%string with (String c (s ++ ":" ++ port)%string).
    rewrite !strip_port_cons, Hc, IH1, IH2. split; reflexivity.
Qed.

(** ** Declared inputs *)



(** ** The Converter, step by step *)

Section ConverterRuns.
Context {W : Type}.
Variable sys : forall X, effect X -> W -> X * W.
Variable fw : forall X, call X -> W -> (exn + X) * W.

Variables (checkpoint_dir meta_filename output_mlmodel_path : string).
Variable input_tensor_map_shapes : list (string * shape).
Variable output_tensor_names : list string.
Variable phase_train_tensor_name : string.

Local Abbreviation conversion :=
  (Converter.convert_tf_checkpoint_to_coreml checkpoint_dir meta_filename
     output_mlmodel_path input_tensor_map_shapes output_tensor_names
     phase_train_tensor_name).

(** Brings both sides of an equation between lists of steps to the same
    shape. *)
Ltac flatten :=
  repeat (progress (cbn [app length repeat];
                    rewrite ?app_nil_r, ?length_app, ?repeat_app, <- ?app_assoc)).

(** X5.  The Converter goes through the library entry points in one fixed
    order and skips none: what a run went through is always a beginning of
    the sequence that ends with one constructor call per declared input and
    per output, the conversion, the save and the two descriptions; the run
    ends normally exactly when it went through all of it without a
    failure. *)
Theorem converter_steps_in_order (w : W) :
  (exists rest,
     steps (trace (run sys fw conversion w)) ++ rest
     = converter_pipeline
         (length (Converter.coreml_inputs input_tensor_map_shapes phase_train_tensor_name))
         (length output_tensor_names)) /\
  (outcome (run sys fw conversion w) = inr tt <->
   steps (trace (run sys fw conversion w))
   = converter_pipeline
       (length (Converter.coreml_inputs input_tensor_map_shapes phase_train_tensor_name))
       (length output_tensor_names) /\
   failures (trace (run sys fw conversion w)) = []).
Proof.
  replace (length output_tensor_names)
    with (length (Converter.coreml_outputs output_tensor_names))
    by apply length_map.
  start; observe; unfold converter_pipeline; cbn [app].
  all: split; [|split; [intros Ho|intros [Hs Hf]]; try discriminate; try congruence].
  all: repeat match goal with H : _ = _ ++ _ :: _ |- _ => rewrite H end.
  all: flatten.
  all: try (eexists; rewrite <- ?app_assoc; cbn [app]; reflexivity).
  all: split; reflexivity.
Qed.

(** X6.  A run of the Converter ends in one of four ways: normally, with
    no failed call; with the exception of the one library call that failed;
    with the script's own [ValueError], when no call failed and the
    checkpoint lookup answered [None] or the empty string; or with the
    [AttributeError] of calling [restore] on [None], when no call failed,
    the load returned no saver and a checkpoint was found. *)
Theorem converter_failure_kinds (w : W) :
  (outcome (run sys fw conversion w) = inr tt /\
   failures (trace (run sys fw conversion w)) = []) \/
  (exists e, outcome (run sys fw conversion w) = inl e /\
             failures (trace (run sys fw conversion w)) = [e]) \/
  (outcome (run sys fw conversion w)
   = inl (ValueError ("No checkpoint found in directory: " ++ checkpoint_dir)) /\
   failures (trace (run sys fw conversion w)) = [] /\
   (lookups (trace (run sys fw conversion w)) = [inr None] \/
    lookups (trace (run sys fw conversion w)) = [inr (Some EmptyString)])) \/
  (outcome (run sys fw conversion w)
   = inl (AttributeError "'NoneType' object has no attribute 'restore'") /\
   failures (trace (run sys fw conversion w)) = [] /\
   import_answers (trace (run sys fw conversion w)) = [inr None] /\
   restores (trace (run sys fw conversion w)) = [] /\
   exists ckpt, ckpt <> EmptyString /\
                lookups (trace (run sys fw conversion w)) = [inr (Some ckpt)]).
Proof.
  start; observe.
  all: try (left; split; reflexivity).
  all: try (right; left; eexists; split; reflexivity).
  all: try (right; right; left; repeat split; auto; [left; reflexivity]).
  all: try (right; right; left; repeat split; auto; right;
            match goal with E : _ = true |- _ =>
              apply String.eqb_eq in E; rewrite E; reflexivity end).
  all: right; right; right; repeat split; auto.
  all: eexists; split; [|reflexivity].
  all: match goal with E : String.eqb ?s _ = false |- ?s <> _ =>
         intros ->; discriminate E end.
Qed.

(** X7.  The weights are restored from the path the checkpoint lookup
    returned, which is not empty, and from nothing else. *)
Theorem converter_restores_found_checkpoint (w : W) (ckpt : string) :
  In ckpt (restores (trace (run sys fw conversion w))) ->
  lookups (trace (run sys fw conversion w)) = [inr (Some ckpt)] /\
  ckpt <> EmptyString /\
  restores (trace (run sys fw conversion w)) = [ckpt].
Proof.
  start; observe; close.
  all: match goal with E : String.eqb ?s _ = false |- ?s <> _ =>
         intros ->; discriminate E end.
Qed.

(** X8.  Every [with] block the Converter entered is left, the innermost
    first, however the run ends. *)
Theorem converter_contexts_released (w : W) :
  left (trace (run sys fw conversion w)) = rev (entered (trace (run sys fw conversion w))).
Proof.
  start; observe; close.
Qed.

(** X9.  The only file the Converter opens is [frozen_model.pb] joined to
    the checkpoint directory, for binary writing. *)
Theorem converter_opens_frozen_model_only (w : W) (path mode : string) :
  In (path, mode) (opened (trace (run sys fw conversion w))) ->
  mode = "wb" /\
  (path = (checkpoint_dir ++ "frozen_model.pb")%string \/
   path = (checkpoint_dir ++ "/" ++ "frozen_model.pb")%string).
Proof.
  start; observe; intros Hin; repeat (destruct Hin as [Hin|Hin]); try contradiction.
  all: injection Hin as <- <-; split; [reflexivity|].
  all: apply path_join_relative; reflexivity.
Qed.

(** X10.  In a run that ends normally the library is called exactly as
    follows, each call fed by the answers of the earlier ones: the graph
    that freezing returned is the one serialized, written to the opened file
    and handed to [ct.convert] with source [tensorflow] and target macOS 12,
    after one [ct.TensorType] was made for every declared input and then for
    every output; the model [ct.convert] returned is the one saved at the
    output path and asked for its description. *)
Theorem converter_success_calls (w : W) :
  outcome (run sys fw conversion w) = inr tt ->
  exists g sess c sv ckpt gd fgd f data m sp sp',
    ckpt <> EmptyString /\
    calls (trace (run sys fw conversion w))
    = [Called DisableEagerExecution (inr tt);
       Called Graph (inr g);
       Called (AsDefault g) (inr tt);
       Called (Session g) (inr sess);
       Called (Constant false tf_bool "phase_train_const_val") (inr c);
       Called (ImportMetaGraph (path_join checkpoint_dir meta_filename) true
                 (Some [(phase_train_tensor_name, c)])) (inr (Some sv));
       Called (LatestCheckpoint checkpoint_dir) (inr (Some ckpt));
       Called (Restore sv sess ckpt) (inr tt);
       Called (SessGraphDef sess) (inr gd);
       Called (ConvertVariablesToConstants sess gd (map strip_port output_tensor_names))
              (inr fgd);
       Called (GFile (path_join checkpoint_dir "frozen_model.pb") "wb") (inr f);
       Called (SerializeToString fgd) (inr data);
       Called (Write f data) (inr tt)]
      ++ map (fun t => Called (MakeTensorType (tt_name t) (tt_shape t)) (inr tt))
             (Converter.coreml_inputs input_tensor_map_shapes phase_train_tensor_name)
      ++ map (fun name => Called (MakeTensorType name None) (inr tt)) output_tensor_names
      ++ [Called (CtConvert fgd "tensorflow"
                    (Converter.coreml_outputs output_tensor_names)
                    (Converter.coreml_inputs input_tensor_map_shapes phase_train_tensor_name)
                    macOS12) (inr m);
          Called (Save m output_mlmodel_path) (inr tt);
          Called (GetSpec m) (inr sp);
          Called (GetSpec m) (inr sp')].
Proof.
  intros Hok.
  destruct (converter_success_trace sys fw _ _ _ _ _ _ w Hok)
    as (g & sess & c & sv & ckpt & gd & fgd & f & data & m & sp & sp' & Hckpt & Ht).
  exists g, sess, c, sv, ckpt, gd, fgd, f, data, m, sp, sp'.
  split; [exact Hckpt|]. rewrite Ht. unfold calls.
  rewrite !filter_app, !calls_constructions.
  fold (calls (prints (map feature_line (description_input sp)))).
  fold (calls (prints (map feature_line (description_output sp')))).
  rewrite !calls_prints.
  unfold constructions, Converter.coreml_outputs at 1. rewrite map_map. reflexivity.
Qed.

(** X11.  In a run that ends normally the Converter prints its progress
    lines and then the summary: one line per input of the model as
    [get_spec] described it, and one per output, each with name and type. *)
Theorem converter_success_stdout (w : W) :
  outcome (run sys fw conversion w) = inr tt ->
  exists ckpt sp sp',
    lookups (trace (run sys fw conversion w)) = [inr (Some ckpt)] /\
    specs (trace (run sys fw conversion w)) = [inr sp; inr sp'] /\
    stdout (trace (run sys fw conversion w))
    = [ [Lit "Loading meta graph: "; Str (path_join checkpoint_dir meta_filename)];
        [Lit "Restoring weights from: "; Str ckpt];
        [Lit "Weights restored successfully."];
        [Lit "Freezing graph with output nodes: ";
         Names (map strip_port output_tensor_names)];
        [Lit "Frozen graph saved to: "; Str (path_join checkpoint_dir "frozen_model.pb")];
        [Lit "Converting to Core ML..."];
        [Lit "Core ML model saved to: "; Str output_mlmodel_path];
        [Lit (Converter.newline ++ "Conversion Complete!")];
        [Lit "Input details for Core ML model:"] ]
      ++ map feature_line (description_input sp)
      ++ [ [Lit "Output details for Core ML model:"] ]
      ++ map feature_line (description_output sp').
Proof.
  intros Hok.
  destruct (converter_success_trace sys fw _ _ _ _ _ _ w Hok)
    as (g & sess & c & sv & ckpt & gd & fgd & f & data & m & sp & sp' & Hckpt & Ht).
  exists ckpt, sp, sp'. rewrite Ht.
  unfold lookups, specs.
  rewrite !flat_map_app, !stdout_app, !stdout_prints, !stdout_constructions.
  rewrite !reads_no_prints by (intro; reflexivity).
  rewrite !reads_no_constructions by (intros; reflexivity).
  repeat split; try reflexivity.
  cbn -[String.append path_join]. now rewrite app_nil_r.
Qed.

(** X22.  When [ct.TensorType] refuses a declared input or output, the
    Converter ends with that exception: the frozen graph is already written,
    [ct.convert] is not called and no model is saved. *)
Theorem converter_refused_tensor_type (w : W) (name : string) (shp : shape) (e : exn) :
  In (name, shp, e) (refusals (trace (run sys fw conversion w))) ->
  outcome (run sys fw conversion w) = inl e /\
  refusals (trace (run sys fw conversion w)) = [(name, shp, e)] /\
  In {| tt_name := name; tt_shape := shp |}
     (Converter.coreml_inputs input_tensor_map_shapes phase_train_tensor_name
      ++ Converter.coreml_outputs output_tensor_names) /\
  conversions (trace (run sys fw conversion w)) = [] /\
  saved (trace (run sys fw conversion w)) = [] /\
  exists data, written (trace (run sys fw conversion w)) = [data].
Proof.
  start; observe.
  all: intros Hin; repeat (destruct Hin as [Hin|Hin]); try contradiction.
  all: injection Hin as <- <- <-.
  all: repeat match goal with H : _ = _ ++ _ :: _ |- _ => rewrite H end.
  all: repeat split; try reflexivity; try (eexists; reflexivity).
  all: rewrite ?in_app_iff; cbn [In]; destruct t; auto.
Qed.

End ConverterRuns.

(** ** The Inspector, step by step *)

Section InspectorRuns.
Context {W : Type}.
Variable sys : forall X, effect X -> W -> X * W.
Variable fw : forall X, call X -> W -> (exn + X) * W.

Variables (checkpoint_dir meta_graph_filename : string).

Local Abbreviation inspection :=
  (Inspector.inspect_checkpoint_model checkpoint_dir meta_graph_filename).

(** X12.  The Inspector goes through the library entry points in one fixed
    order; what a run went through is always a beginning of that
    sequence. *)
Theorem inspector_steps_in_order (w : W) :
  exists rest, steps (trace (run sys fw inspection w)) ++ rest = inspector_pipeline.
Proof.
  start; observe; unfold inspector_pipeline; close.
Qed.

(** X13.  A run of [inspect_checkpoint_model] ends in one of three ways:
    normally, with no failed call; with the exception of the one library
    call that failed; or with the [AttributeError] of calling [restore] on
    [None], when no call failed, the load returned no saver and a checkpoint
    was found, the line that announces the restore being the only one
    printed. *)
Theorem inspector_failure_kinds (w : W) :
  (outcome (run sys fw inspection w) = inr tt /\
   failures (trace (run sys fw inspection w)) = []) \/
  (exists e, outcome (run sys fw inspection w) = inl e /\
             failures (trace (run sys fw inspection w)) = [e]) \/
  (outcome (run sys fw inspection w)
   = inl (AttributeError "'NoneType' object has no attribute 'restore'") /\
   failures (trace (run sys fw inspection w)) = [] /\
   import_answers (trace (run sys fw inspection w)) = [inr None] /\
   restores (trace (run sys fw inspection w)) = [] /\
   listings (trace (run sys fw inspection w)) = [] /\
   exists ckpt, ckpt <> EmptyString /\
                lookups (trace (run sys fw inspection w)) = [inr (Some ckpt)] /\
                stdout (trace (run sys fw inspection w))
                = [[Lit "Restoring weights from: "; Str ckpt]]).
Proof.
  start; observe.
  all: try (left; split; reflexivity).
  all: try (right; left; eexists; split; reflexivity).
  all: right; right; repeat split; auto.
  all: eexists; split; [|split; reflexivity].
  all: match goal with E : String.eqb ?s _ = false |- ?s <> _ =>
         intros ->; discriminate E end.
Qed.

(** X14.  The Inspector restores the weights from the path the checkpoint
    lookup returned, which is not empty, and from nothing else. *)
Theorem inspector_restores_found_checkpoint (w : W) (ckpt : string) :
  In ckpt (restores (trace (run sys fw inspection w))) ->
  lookups (trace (run sys fw inspection w)) = [inr (Some ckpt)] /\
  ckpt <> EmptyString /\
  restores (trace (run sys fw inspection w)) = [ckpt].
Proof.
  start; observe; close.
  all: match goal with E : String.eqb ?s _ = false |- ?s <> _ =>
         intros ->; discriminate E end.
Qed.

(** X15.  When the checkpoint lookup answers [None] or the empty string,
    the Inspector prints the one error line, restores nothing, asks for no
    operation and returns normally. *)
Theorem inspector_falsy_checkpoint (w : W) (answer : option string) :
  lookups (trace (run sys fw inspection w)) = [inr answer] ->
  truthy answer = false ->
  outcome (run sys fw inspection w) = inr tt /\
  stdout (trace (run sys fw inspection w))
  = [[Lit "Error: No checkpoint found in directory: "; Str checkpoint_dir]] /\
  restores (trace (run sys fw inspection w)) = [] /\
  listings (trace (run sys fw inspection w)) = [].
Proof.
  start; observe.
  all: intros Hlook Hfalsy; try discriminate Hlook.
  all: injection Hlook as <-; cbn in Hfalsy.
  all: try (repeat split; reflexivity).
  all: match goal with E : String.eqb _ _ = false |- _ => rewrite E in Hfalsy end;
       discriminate Hfalsy.
Qed.

(** X16.  Every [with] block the Inspector entered is left, the innermost
    first, however the run ends. *)
Theorem inspector_contexts_released (w : W) :
  left (trace (run sys fw inspection w)) = rev (entered (trace (run sys fw inspection w))).
Proof.
  start; observe; close.
Qed.

(** X17.  The Inspector only reads: it never freezes, serializes, opens
    or writes a file, converts or saves, and it loads the graph with no
    input map. *)
Theorem inspector_read_only (w : W) :
  attempts (trace (run sys fw inspection w)) = [] /\
  opened (trace (run sys fw inspection w)) = [] /\
  (forall imp, In imp (imports (trace (run sys fw inspection w))) ->
     imp = (path_join checkpoint_dir meta_graph_filename, true, None)).
Proof.
  repeat split.
  - unfold attempts. apply filter_nothing. apply always_run.
    unfold Inspector.inspect_checkpoint_model, Inspector.print_graph,
      Inspector.print_hints, Inspector.print_operation, Inspector.print_placeholder.
    walk.
  - unfold opened. apply reader_nil. apply always_run.
    unfold Inspector.inspect_checkpoint_model, Inspector.print_graph,
      Inspector.print_hints, Inspector.print_operation, Inspector.print_placeholder.
    walk.
  - unfold imports.
    apply (reader_all _ (fun imp => imp = (path_join checkpoint_dir meta_graph_filename, true, None))).
    apply always_run.
    unfold Inspector.inspect_checkpoint_model, Inspector.print_graph,
      Inspector.print_hints, Inspector.print_operation, Inspector.print_placeholder.
    walk; settle.
Qed.




End InspectorRuns.

(** ** The Inspector's main block *)

Section InspectorMain.
Context {W : Type}.
Variable sys : forall X, effect X -> W -> X * W.
Variable fw : forall X, call X -> W -> (exn + X) * W.

(** X21.  The main block of the Inspector lets no exception out: whatever
    the libraries answer, it ends normally. *)
Theorem inspector_main_never_raises (checkpoint_base_dir meta_file : string) (w : W) :
  outcome (run sys fw (Inspector.main_with checkpoint_base_dir meta_file) w) = inr tt.
Proof.
  unfold Inspector.main_with, print, perform.
  cbn -[String.append path_join Inspector.inspect_checkpoint_model try_except].
  destruct (sys bool _ w) as [found w0]. cbn [fst snd].
  destruct found;
    cbn -[String.append path_join Inspector.inspect_checkpoint_model try_except].
  - rewrite run_try_except.
    destruct (outcome (run sys fw (Inspector.inspect_checkpoint_model checkpoint_base_dir meta_file) w0))
      as [e|[]] eqn:Ho.
    + cbn -[Inspector.inspect_checkpoint_model].
      repeat match goal with |- context [fst (sys unit ?a ?w)] =>
        destruct (fst (sys unit a w)) end.
      reflexivity.
    + exact Ho.
  - destruct (fst (sys unit _ _)). reflexivity.
Qed.

(** X23.  When the load returns no saver and a checkpoint is found, the
    main block of the Inspector ends normally: after the line that announces
    the restore it prints the [AttributeError] and the traceback, and the
    graph is never listed. *)
Theorem inspector_missing_saver_reported (checkpoint_base_dir meta_file : string)
        (w : W) (ckpt : string) :
  import_answers (trace (run sys fw (Inspector.main_with checkpoint_base_dir meta_file) w))
  = [inr None] ->
  lookups (trace (run sys fw (Inspector.main_with checkpoint_base_dir meta_file) w))
  = [inr (Some ckpt)] ->
  ckpt <> EmptyString ->
  outcome (run sys fw (Inspector.main_with checkpoint_base_dir meta_file) w) = inr tt /\
  stdout (trace (run sys fw (Inspector.main_with checkpoint_base_dir meta_file) w))
  = [[Lit "Restoring weights from: "; Str ckpt];
     [Lit "An error occurred during model inspection: ";
      Err (AttributeError "'NoneType' object has no attribute 'restore'")]] /\
  listings (trace (run sys fw (Inspector.main_with checkpoint_base_dir meta_file) w)) = [] /\
  exists pre,
    trace (run sys fw (Inspector.main_with checkpoint_base_dir meta_file) w)
    = pre ++ [Did (Print [Lit "An error occurred during model inspection: ";
                          Err (AttributeError "'NoneType' object has no attribute 'restore'")]) tt;
              Did (PrintExc (AttributeError "'NoneType' object has no attribute 'restore'")) tt].
Proof.
  unfold Inspector.main_with, print, perform.
  cbn -[String.append path_join Inspector.inspect_checkpoint_model try_except].
  destruct (sys bool _ w) as [found w0]. cbn [fst snd].
  destruct found;
    cbn -[String.append path_join Inspector.inspect_checkpoint_model try_except].
  2: { intros Hi. discriminate Hi. }
  rewrite run_try_except.
  destruct (outcome (run sys fw (Inspector.inspect_checkpoint_model checkpoint_base_dir meta_file) w0))
    as [e|[]] eqn:Ho;
    cbn -[String.append path_join Inspector.inspect_checkpoint_model];
    unfold import_answers, lookups; rewrite ?flat_map_app;
    cbn -[String.append path_join Inspector.inspect_checkpoint_model];
    rewrite ?app_nil_r; intros Hi Hl Hne;
    destruct (inspect_missing_saver_trace sys fw _ _ w0 ckpt Hi Hl Hne)
      as (g & sess & Hout & Htr);
    rewrite Hout in Ho; [injection Ho as <-|discriminate Ho].
  rewrite Htr.
  repeat match goal with |- context [fst (sys unit ?a ?w)] =>
    destruct (fst (sys unit a w)) end.
  cbn -[String.append path_join].
  repeat split. eexists [_; _; _; _; _; _; _; _; _]. reflexivity.
Qed.

End InspectorMain.

(** * The scripts, against the stand-in library *)

Example strip_port_Tanh :
  strip_port "tower_0/warping_model/Tanh:0" = "tower_0/warping_model/Tanh".
Proof. reflexivity. Qed.

Example strip_port_no_port : strip_port "init" = "init".
Proof. reflexivity. Qed.

Example strip_port_two_colons : strip_port "a:b:1" = "a".
Proof. reflexivity. Qed.

Example path_join_meta : path_join "OriginalModel/R" "R.meta" = "OriginalModel/R/R.meta".
Proof. reflexivity. Qed.

Example path_join_trailing_sep : path_join "OriginalModel/R/" "R.meta" = "OriginalModel/R/R.meta".
Proof. reflexivity. Qed.

Example path_join_absolute : path_join "OriginalModel/R" "/tmp/R.meta" = "/tmp/R.meta".
Proof. reflexivity. Qed.

Example main_call_writes_the_weights :
  written (trace (run (Fake.sys Fake.trained) (Fake.fw Fake.trained) Converter.main_call 0%N))
  = [[Byte.x0a; Byte.x01]].
Proof. reflexivity. Qed.

Example main_call_loads_once :
  imports (trace (run (Fake.sys Fake.trained) (Fake.fw Fake.trained) Converter.main_call 0%N))
  = [("OriginalModel/R/R.meta", true, Some [("model_control/phase_train:0", TensorRef 0)])].
Proof. reflexivity. Qed.

Example inspector_lists_three_operations :
  filter is_operation_line
    (stdout (trace (run (Fake.sys Fake.trained) (Fake.fw Fake.trained) Inspector.main 0%N)))
  = [ [Lit "- Operation Name: "; Str "inputs/input_img"; Lit " (Type: "; Str "Placeholder"; Lit ")"];
      [Lit "- Operation Name: "; Str "tower_0/warping_model/Tanh"; Lit " (Type: "; Str "Tanh"; Lit ")"];
      [Lit "- Operation Name: "; Str "init"; Lit " (Type: "; Str "NoOp"; Lit ")"] ].
Proof. reflexivity. Qed.

(** A meta graph without variables: the load returns no saver, and the
    Converter ends with the error of calling [restore] on [None]. *)
Example convert_without_variables :
  outcome (run (Fake.sys Fake.without_variables) (Fake.fw Fake.without_variables)
               Converter.main_call 0%N)
  = inl (AttributeError "'NoneType' object has no attribute 'restore'") /\
  attempts (trace (run (Fake.sys Fake.without_variables) (Fake.fw Fake.without_variables)
                       Converter.main_call 0%N)) = [].
Proof. split; reflexivity. Qed.

(** On the same directory the Inspector's main block reports that error
    and ends normally. *)
Example inspect_without_variables :
  outcome (run (Fake.sys Fake.without_variables) (Fake.fw Fake.without_variables)
               Inspector.main 0%N) = inr tt /\
  stdout (trace (run (Fake.sys Fake.without_variables) (Fake.fw Fake.without_variables)
                     Inspector.main 0%N))
  = [[Lit "Restoring weights from: "; Str "OriginalModel/R/R"];
     [Lit "An error occurred during model inspection: ";
      Err (AttributeError "'NoneType' object has no attribute 'restore'")]].
Proof. split; reflexivity. Qed.

(** A shape the constructor refuses: the Converter ends with that error
    after the frozen graph is written and before [ct.convert] is called. *)
Example convert_with_negative_dimension :
  outcome (run (Fake.sys Fake.trained) (Fake.fw Fake.trained)
               (Converter.convert_tf_checkpoint_to_coreml
                  Converter.checkpoint_dir Converter.META_FILE
                  Converter.output_mlmodel_full_path
                  [("inputs/input_ang:0", Some [-1; 2]%Z)]
                  [Converter.output_tensor_name] "model_control/phase_train:0") 0%N)
  = inl (Exn "ValueError" "Invalid shape for input inputs/input_ang") /\
  written (trace (run (Fake.sys Fake.trained) (Fake.fw Fake.trained)
               (Converter.convert_tf_checkpoint_to_coreml
                  Converter.checkpoint_dir Converter.META_FILE
                  Converter.output_mlmodel_full_path
                  [("inputs/input_ang:0", Some [-1; 2]%Z)]
                  [Converter.output_tensor_name] "model_control/phase_train:0") 0%N))
  = [[Byte.x0a; Byte.x01]] /\
  conversions (trace (run (Fake.sys Fake.trained) (Fake.fw Fake.trained)
               (Converter.convert_tf_checkpoint_to_coreml
                  Converter.checkpoint_dir Converter.META_FILE
                  Converter.output_mlmodel_full_path
                  [("inputs/input_ang:0", Some [-1; 2]%Z)]
                  [Converter.output_tensor_name] "model_control/phase_train:0") 0%N))
  = [].
Proof. repeat split; reflexivity. Qed.

(** The right-eye configuration on a directory that has the meta file and
    no checkpoint. *)
Lemma convert_without_checkpoint_witness :
  no_checkpoint (Fake.fw Fake.untrained) Converter.checkpoint_dir /\
  (attempts (trace (run (Fake.sys Fake.untrained) (Fake.fw Fake.untrained)
                        Converter.main_call 0%N)) = [] /\
   (exists e, outcome (run (Fake.sys Fake.untrained) (Fake.fw Fake.untrained)
                           Converter.main_call 0%N) = inl e) /\
   ((exists sv, In (inr sv) (import_answers
       (trace (run (Fake.sys Fake.untrained) (Fake.fw Fake.untrained)
                   Converter.main_call 0%N)))) ->
    outcome (run (Fake.sys Fake.untrained) (Fake.fw Fake.untrained) Converter.main_call 0%N)
    = inl (ValueError ("No checkpoint found in directory: " ++ Converter.checkpoint_dir)))).
Proof.
  split; [intro w; reflexivity|].
  apply convert_without_checkpoint. intro w. reflexivity.
Defined.

(** In an empty directory no checkpoint can be located either, and the
    Converter fails on the meta graph, with the error of that call and not
    with the [ValueError]. *)
Lemma convert_in_empty_directory :
  no_checkpoint (Fake.fw Fake.empty) Converter.checkpoint_dir /\
  outcome (run (Fake.sys Fake.empty) (Fake.fw Fake.empty) Converter.main_call 0%N)
  = inl (Exn "OSError" "File does not exist: OriginalModel/R/R.meta") /\
  outcome (run (Fake.sys Fake.empty) (Fake.fw Fake.empty) Converter.main_call 0%N)
  <> inl (ValueError ("No checkpoint found in directory: " ++ Converter.checkpoint_dir)).
Proof.
  split; [intro w; reflexivity|]. split; [reflexivity|]. discriminate.
Qed.

(** The right-eye configuration on a trained directory: what is asked of
    the freezing step and of the converter, and what the artifact
    declares. *)
Lemma artifact_outputs_from_converter_witness :
  outcome (run (Fake.sys Fake.trained) (Fake.fw Fake.trained) Converter.main_call 0%N)
  = inr tt /\
  exists m sp sp',
    conversions (trace (run (Fake.sys Fake.trained) (Fake.fw Fake.trained)
                            Converter.main_call 0%N))
    = [(map (fun name => {| tt_name := name; tt_shape := None |})
            [Converter.output_tensor_name], inr m)] /\
    saved (trace (run (Fake.sys Fake.trained) (Fake.fw Fake.trained)
                      Converter.main_call 0%N))
    = [(m, Converter.output_mlmodel_full_path)] /\
    described (trace (run (Fake.sys Fake.trained) (Fake.fw Fake.trained)
                          Converter.main_call 0%N))
    = [(m, inr sp); (m, inr sp')] /\
    artifact_outputs (trace (run (Fake.sys Fake.trained) (Fake.fw Fake.trained)
                                 Converter.main_call 0%N))
    = [map spec_name (description_output sp); map spec_name (description_output sp')] /\
    exists progress,
      stdout (trace (run (Fake.sys Fake.trained) (Fake.fw Fake.trained)
                         Converter.main_call 0%N))
      = progress ++ [Lit "Output details for Core ML model:"]
        :: map (fun out => [Lit "  Name: "; Str (spec_name out);
                            Lit ", Type: "; Proto (spec_type out)])
               (description_output sp').
Proof.
  split; [reflexivity|].
  destruct (artifact_outputs_from_converter (Fake.sys Fake.trained) (Fake.fw Fake.trained)
              Converter.checkpoint_dir Converter.META_FILE
              Converter.output_mlmodel_full_path Converter.input_tensor_map_shapes
              [Converter.output_tensor_name] "model_control/phase_train:0" 0%N)
    as (_ & _ & Hartifact).
  apply Hartifact. reflexivity.
Defined.

(** The same run ends normally, and the output name the artifact declares
    is not the configured name with its port stripped. *)
Lemma artifact_outputs_not_stripped :
  outcome (run (Fake.sys Fake.trained) (Fake.fw Fake.trained) Converter.main_call 0%N)
  = inr tt /\
  artifact_outputs (trace (run (Fake.sys Fake.trained) (Fake.fw Fake.trained)
                               Converter.main_call 0%N))
  = [["tower_0_warping_model_Tanh_0"]; ["tower_0_warping_model_Tanh_0"]] /\
  map strip_port [Converter.output_tensor_name] = ["tower_0/warping_model/Tanh"] /\
  ~ In (map strip_port [Converter.output_tensor_name])
       (artifact_outputs (trace (run (Fake.sys Fake.trained) (Fake.fw Fake.trained)
                                     Converter.main_call 0%N))).
Proof.
  split; [reflexivity|]. split; [reflexivity|]. split; [reflexivity|].
  intros [H|[H|[]]]; discriminate H.
Qed.

(** The three inputs declared for the right-eye configuration. *)
Lemma declared_inputs_exclude_control_tensor_witness :
  In [{| tt_name := "inputs/input_img"; tt_shape := Some [1; 48; 64; 3]%Z |};
      {| tt_name := "inputs/input_fp"; tt_shape := Some [1; 48; 64; 12]%Z |};
      {| tt_name := "inputs/input_ang"; tt_shape := Some [1; 2]%Z |}]
     (declared_inputs (trace (run (Fake.sys Fake.trained) (Fake.fw Fake.trained)
                                  Converter.main_call 0%N))) /\
  [{| tt_name := "inputs/input_img"; tt_shape := Some [1; 48; 64; 3]%Z |};
   {| tt_name := "inputs/input_fp"; tt_shape := Some [1; 48; 64; 12]%Z |};
   {| tt_name := "inputs/input_ang"; tt_shape := Some [1; 2]%Z |}]
  = flat_map
      (fun item : string * shape =>
         if String.eqb (fst item) "model_control/phase_train:0" then []
         else [{| tt_name := strip_port (fst item); tt_shape := snd item |}])
      Converter.input_tensor_map_shapes.
Proof.
  split; [left; reflexivity|].
  apply (declared_inputs_exclude_control_tensor (Fake.sys Fake.trained) (Fake.fw Fake.trained)
           Converter.checkpoint_dir Converter.META_FILE
           Converter.output_mlmodel_full_path Converter.input_tensor_map_shapes
           [Converter.output_tensor_name] "model_control/phase_train:0" 0%N).
  left. reflexivity.
Defined.

(** The load of the right-eye configuration. *)
Lemma loads_with_phase_train_off_witness :
  imports (trace (run (Fake.sys Fake.trained) (Fake.fw Fake.trained) Converter.main_call 0%N))
  = [("OriginalModel/R/R.meta", true, Some [("model_control/phase_train:0", TensorRef 0)])].
Proof.
  destruct (loads_with_phase_train_off (Fake.sys Fake.trained) (Fake.fw Fake.trained)
              Converter.checkpoint_dir Converter.META_FILE
              Converter.output_mlmodel_full_path Converter.input_tensor_map_shapes
              [Converter.output_tensor_name] "model_control/phase_train:0" 0%N)
    as [(c & Hc & Hi)|(e & rest & Ho & _)].
  - vm_compute in Hc. injection Hc as Hc. subst c. exact Hi.
  - discriminate Ho.
Defined.

(** An operator the converter rejects. *)
Lemma framework_errors_propagate_witness :
  In (Exn "NotImplementedError" "Conversion for TF op not implemented.")
     (failures (trace (run (Fake.sys Fake.unconvertible) (Fake.fw Fake.unconvertible)
                           Converter.main_call 0%N))) /\
  (outcome (run (Fake.sys Fake.unconvertible) (Fake.fw Fake.unconvertible)
                Converter.main_call 0%N)
   = inl (Exn "NotImplementedError" "Conversion for TF op not implemented.") /\
   failures (trace (run (Fake.sys Fake.unconvertible) (Fake.fw Fake.unconvertible)
                        Converter.main_call 0%N))
   = [Exn "NotImplementedError" "Conversion for TF op not implemented."]).
Proof.
  split; [left; reflexivity|].
  apply framework_errors_propagate. left. reflexivity.
Defined.

(** Two runs of the right-eye configuration, started at different clock
    readings, on a disk whose serialization does not vary. *)
Lemma frozen_graph_as_serialized_witness :
  (outcome (run (Fake.sys Fake.trained) (Fake.fw Fake.trained) Converter.main_call 0%N)
   = inr tt /\
   outcome (run (Fake.sys Fake.trained) (Fake.fw Fake.trained) Converter.main_call 7%N)
   = inr tt) /\
  exists fgd1 data1 fgd2 data2,
    (frozen_graphs (trace (run (Fake.sys Fake.trained) (Fake.fw Fake.trained)
                               Converter.main_call 0%N)) = [inr fgd1] /\
     serializations (trace (run (Fake.sys Fake.trained) (Fake.fw Fake.trained)
                                Converter.main_call 0%N)) = [(fgd1, inr data1)] /\
     written (trace (run (Fake.sys Fake.trained) (Fake.fw Fake.trained)
                         Converter.main_call 0%N)) = [data1]) /\
    (frozen_graphs (trace (run (Fake.sys Fake.trained) (Fake.fw Fake.trained)
                               Converter.main_call 7%N)) = [inr fgd2] /\
     serializations (trace (run (Fake.sys Fake.trained) (Fake.fw Fake.trained)
                                Converter.main_call 7%N)) = [(fgd2, inr data2)] /\
     written (trace (run (Fake.sys Fake.trained) (Fake.fw Fake.trained)
                         Converter.main_call 7%N)) = [data2]) /\
    (written (trace (run (Fake.sys Fake.trained) (Fake.fw Fake.trained)
                         Converter.main_call 0%N))
     = written (trace (run (Fake.sys Fake.trained) (Fake.fw Fake.trained)
                           Converter.main_call 7%N))
     <-> data1 = data2).
Proof.
  split; [split; reflexivity|].
  apply (frozen_graph_as_serialized (Fake.sys Fake.trained) (Fake.fw Fake.trained)
           Converter.checkpoint_dir Converter.META_FILE
           Converter.output_mlmodel_full_path Converter.input_tensor_map_shapes
           [Converter.output_tensor_name] "model_control/phase_train:0" 0%N 7%N);
    reflexivity.
Defined.

(** Two runs of the right-eye configuration on the same disk, whose
    serialization varies with the state of the process: both end normally
    and the frozen graphs they write differ. *)
Lemma frozen_graph_differs :
  outcome (run (Fake.sys Fake.unordered) (Fake.fw Fake.unordered) Converter.main_call 0%N)
  = inr tt /\
  outcome (run (Fake.sys Fake.unordered) (Fake.fw Fake.unordered) Converter.main_call 1%N)
  = inr tt /\
  written (trace (run (Fake.sys Fake.unordered) (Fake.fw Fake.unordered)
                      Converter.main_call 0%N))
  <> written (trace (run (Fake.sys Fake.unordered) (Fake.fw Fake.unordered)
                         Converter.main_call 1%N)).
Proof.
  split; [reflexivity|]. split; [reflexivity|]. discriminate.
Qed.


(** The Inspector in an empty directory. *)
Lemma missing_meta_file_aborts_witness :
  fst (Fake.sys Fake.empty _
         (PathExists (path_join Inspector.checkpoint_base_dir Inspector.meta_file)) 0%N)
  = false /\
  (outcome (run (Fake.sys Fake.empty) (Fake.fw Fake.empty)
                (Inspector.main_with Inspector.checkpoint_base_dir Inspector.meta_file) 0%N)
   = inr tt /\
   calls (trace (run (Fake.sys Fake.empty) (Fake.fw Fake.empty)
                (Inspector.main_with Inspector.checkpoint_base_dir Inspector.meta_file) 0%N))
   = [] /\
   stdout (trace (run (Fake.sys Fake.empty) (Fake.fw Fake.empty)
                (Inspector.main_with Inspector.checkpoint_base_dir Inspector.meta_file) 0%N))
   = [[Lit "Error: Meta graph file not found at ";
       Str (path_join Inspector.checkpoint_base_dir Inspector.meta_file)]]).
Proof.
  split; [reflexivity|].
  apply missing_meta_file_aborts. reflexivity.
Defined.

(** The Inspector on a checkpoint that cannot be read. *)
Lemma inspection_failure_reported_witness :
  In (Exn "DataLossError" "Unable to open table file OriginalModel/R/R")
     (failures (trace (run (Fake.sys Fake.corrupt) (Fake.fw Fake.corrupt)
                (Inspector.main_with Inspector.checkpoint_base_dir Inspector.meta_file) 0%N))) /\
  (outcome (run (Fake.sys Fake.corrupt) (Fake.fw Fake.corrupt)
                (Inspector.main_with Inspector.checkpoint_base_dir Inspector.meta_file) 0%N)
   = inr tt /\
   exists pre,
     trace (run (Fake.sys Fake.corrupt) (Fake.fw Fake.corrupt)
                (Inspector.main_with Inspector.checkpoint_base_dir Inspector.meta_file) 0%N)
     = pre ++ [Did (Print [Lit "An error occurred during model inspection: ";
                           Err (Exn "DataLossError" "Unable to open table file OriginalModel/R/R")]) tt;
               Did (PrintExc (Exn "DataLossError" "Unable to open table file OriginalModel/R/R")) tt]).
Proof.
  split; [left; reflexivity|].
  apply inspection_failure_reported. left. reflexivity.
Defined.

(** The Inspector on a directory that has the meta file and no checkpoint. *)
Lemma inspect_without_checkpoint_witness :
  (no_checkpoint (Fake.fw Fake.untrained) Inspector.checkpoint_base_dir /\
   exists sv, In (inr sv) (import_answers
     (trace (run (Fake.sys Fake.untrained) (Fake.fw Fake.untrained)
                 (Inspector.inspect_checkpoint_model Inspector.checkpoint_base_dir
                                                     Inspector.meta_file) 0%N)))) /\
  (outcome (run (Fake.sys Fake.untrained) (Fake.fw Fake.untrained)
                 (Inspector.inspect_checkpoint_model Inspector.checkpoint_base_dir
                                                     Inspector.meta_file) 0%N) = inr tt /\
   stdout (trace (run (Fake.sys Fake.untrained) (Fake.fw Fake.untrained)
                 (Inspector.inspect_checkpoint_model Inspector.checkpoint_base_dir
                                                     Inspector.meta_file) 0%N))
   = [[Lit "Error: No checkpoint found in directory: "; Str Inspector.checkpoint_base_dir]] /\
   listings (trace (run (Fake.sys Fake.untrained) (Fake.fw Fake.untrained)
                 (Inspector.inspect_checkpoint_model Inspector.checkpoint_base_dir
                                                     Inspector.meta_file) 0%N)) = []).
Proof.
  assert (Hload : exists sv, In (inr sv) (import_answers
     (trace (run (Fake.sys Fake.untrained) (Fake.fw Fake.untrained)
                 (Inspector.inspect_checkpoint_model Inspector.checkpoint_base_dir
                                                     Inspector.meta_file) 0%N)))).
  { exists (Some (SaverRef 0)). left. reflexivity. }
  split; [split; [intro w; reflexivity|exact Hload]|].
  apply inspect_without_checkpoint; [intro w; reflexivity|exact Hload].
Defined.

(** ** The theorems above on concrete runs *)

Local Abbreviation trained_conversion :=
  (run (Fake.sys Fake.trained) (Fake.fw Fake.trained) Converter.main_call 0%N).

Local Abbreviation inspection_of d :=
  (run (Fake.sys d) (Fake.fw d)
       (Inspector.inspect_checkpoint_model Inspector.checkpoint_base_dir
                                           Inspector.meta_file) 0%N).

(** The output node of the right-eye model, with port 0. *)
Lemma strip_port_of_node_name_witness :
  colon_free "tower_0/warping_model/Tanh" = true /\
  (strip_port ("tower_0/warping_model/Tanh" ++ ":" ++ "0") = "tower_0/warping_model/Tanh" /\
   strip_port "tower_0/warping_model/Tanh" = "tower_0/warping_model/Tanh").
Proof.
  split; [reflexivity|]. apply strip_port_of_node_name. reflexivity.
Defined.


(** The right-eye configuration on a trained directory. *)
Lemma converter_restores_found_checkpoint_witness :
  In "OriginalModel/R/R" (restores (trace trained_conversion)) /\
  (lookups (trace trained_conversion) = [inr (Some "OriginalModel/R/R")] /\
   "OriginalModel/R/R" <> EmptyString /\
   restores (trace trained_conversion) = ["OriginalModel/R/R"]).
Proof.
  split; [left; reflexivity|].
  apply (converter_restores_found_checkpoint (Fake.sys Fake.trained) (Fake.fw Fake.trained)
           Converter.checkpoint_dir Converter.META_FILE
           Converter.output_mlmodel_full_path Converter.input_tensor_map_shapes
           [Converter.output_tensor_name] "model_control/phase_train:0" 0%N).
  left. reflexivity.
Defined.

Lemma converter_opens_frozen_model_only_witness :
  In ("OriginalModel/R/frozen_model.pb", "wb") (opened (trace trained_conversion)) /\
  ("wb" = "wb" /\
   ("OriginalModel/R/frozen_model.pb" = (Converter.checkpoint_dir ++ "frozen_model.pb")%string \/
    "OriginalModel/R/frozen_model.pb"
    = (Converter.checkpoint_dir ++ "/" ++ "frozen_model.pb")%string)).
Proof.
  split; [left; reflexivity|].
  apply (converter_opens_frozen_model_only (Fake.sys Fake.trained) (Fake.fw Fake.trained)
           Converter.checkpoint_dir Converter.META_FILE
           Converter.output_mlmodel_full_path Converter.input_tensor_map_shapes
           [Converter.output_tensor_name] "model_control/phase_train:0" 0%N).
  left. reflexivity.
Defined.

Lemma converter_success_calls_witness :
  outcome trained_conversion = inr tt /\
  exists g sess c sv ckpt gd fgd f data m sp sp',
    ckpt <> EmptyString /\
    calls (trace trained_conversion)
    = [Called DisableEagerExecution (inr tt);
       Called Graph (inr g);
       Called (AsDefault g) (inr tt);
       Called (Session g) (inr sess);
       Called (Constant false tf_bool "phase_train_const_val") (inr c);
       Called (ImportMetaGraph (path_join Converter.checkpoint_dir Converter.META_FILE) true
                 (Some [("model_control/phase_train:0", c)])) (inr (Some sv));
       Called (LatestCheckpoint Converter.checkpoint_dir) (inr (Some ckpt));
       Called (Restore sv sess ckpt) (inr tt);
       Called (SessGraphDef sess) (inr gd);
       Called (ConvertVariablesToConstants sess gd
                 (map strip_port [Converter.output_tensor_name])) (inr fgd);
       Called (GFile (path_join Converter.checkpoint_dir "frozen_model.pb") "wb") (inr f);
       Called (SerializeToString fgd) (inr data);
       Called (Write f data) (inr tt)]
      ++ map (fun t => Called (MakeTensorType (tt_name t) (tt_shape t)) (inr tt))
             (Converter.coreml_inputs Converter.input_tensor_map_shapes
                                      "model_control/phase_train:0")
      ++ map (fun name => Called (MakeTensorType name None) (inr tt))
             [Converter.output_tensor_name]
      ++ [Called (CtConvert fgd "tensorflow"
                    (Converter.coreml_outputs [Converter.output_tensor_name])
                    (Converter.coreml_inputs Converter.input_tensor_map_shapes
                                             "model_control/phase_train:0")
                    macOS12) (inr m);
          Called (Save m Converter.output_mlmodel_full_path) (inr tt);
          Called (GetSpec m) (inr sp);
          Called (GetSpec m) (inr sp')].
Proof.
  split; [reflexivity|].
  apply (converter_success_calls (Fake.sys Fake.trained) (Fake.fw Fake.trained)
           Converter.checkpoint_dir Converter.META_FILE
           Converter.output_mlmodel_full_path Converter.input_tensor_map_shapes
           [Converter.output_tensor_name] "model_control/phase_train:0" 0%N).
  reflexivity.
Defined.

Lemma converter_success_stdout_witness :
  outcome trained_conversion = inr tt /\
  exists ckpt sp sp',
    lookups (trace trained_conversion) = [inr (Some ckpt)] /\
    specs (trace trained_conversion) = [inr sp; inr sp'] /\
    stdout (trace trained_conversion)
    = [ [Lit "Loading meta graph: ";
         Str (path_join Converter.checkpoint_dir Converter.META_FILE)];
        [Lit "Restoring weights from: "; Str ckpt];
        [Lit "Weights restored successfully."];
        [Lit "Freezing graph with output nodes: ";
         Names (map strip_port [Converter.output_tensor_name])];
        [Lit "Frozen graph saved to: ";
         Str (path_join Converter.checkpoint_dir "frozen_model.pb")];
        [Lit "Converting to Core ML..."];
        [Lit "Core ML model saved to: "; Str Converter.output_mlmodel_full_path];
        [Lit (Converter.newline ++ "Conversion Complete!")];
        [Lit "Input details for Core ML model:"] ]
      ++ map feature_line (description_input sp)
      ++ [ [Lit "Output details for Core ML model:"] ]
      ++ map feature_line (description_output sp').
Proof.
  split; [reflexivity|].
  apply (converter_success_stdout (Fake.sys Fake.trained) (Fake.fw Fake.trained)
           Converter.checkpoint_dir Converter.META_FILE
           Converter.output_mlmodel_full_path Converter.input_tensor_map_shapes
           [Converter.output_tensor_name] "model_control/phase_train:0" 0%N).
  reflexivity.
Defined.

(** The Inspector on a trained directory. *)
Lemma inspector_restores_found_checkpoint_witness :
  In "OriginalModel/R/R" (restores (trace (inspection_of Fake.trained))) /\
  (lookups (trace (inspection_of Fake.trained)) = [inr (Some "OriginalModel/R/R")] /\
   "OriginalModel/R/R" <> EmptyString /\
   restores (trace (inspection_of Fake.trained)) = ["OriginalModel/R/R"]).
Proof.
  split; [left; reflexivity|].
  apply inspector_restores_found_checkpoint. left. reflexivity.
Defined.

(** The Inspector on a directory that has the meta file and no checkpoint. *)
Lemma inspector_falsy_checkpoint_witness :
  (lookups (trace (inspection_of Fake.untrained)) = [inr None] /\
   truthy (@None string) = false) /\
  (outcome (inspection_of Fake.untrained) = inr tt /\
   stdout (trace (inspection_of Fake.untrained))
   = [[Lit "Error: No checkpoint found in directory: "; Str Inspector.checkpoint_base_dir]] /\
   restores (trace (inspection_of Fake.untrained)) = [] /\
   listings (trace (inspection_of Fake.untrained)) = []).
Proof.
  split; [split; reflexivity|].
  apply (inspector_falsy_checkpoint _ _ _ _ _ None); reflexivity.
Defined.




(** An input declared with a negative dimension. *)
Lemma converter_refused_tensor_type_witness :
  In ("inputs/input_ang", Some [-1; 2]%Z,
      Exn "ValueError" "Invalid shape for input inputs/input_ang")
     (refusals (trace (run (Fake.sys Fake.trained) (Fake.fw Fake.trained)
               (Converter.convert_tf_checkpoint_to_coreml
                  Converter.checkpoint_dir Converter.META_FILE
                  Converter.output_mlmodel_full_path
                  [("inputs/input_ang:0", Some [-1; 2]%Z)]
                  [Converter.output_tensor_name] "model_control/phase_train:0") 0%N))) /\
  (outcome (run (Fake.sys Fake.trained) (Fake.fw Fake.trained)
               (Converter.convert_tf_checkpoint_to_coreml
                  Converter.checkpoint_dir Converter.META_FILE
                  Converter.output_mlmodel_full_path
                  [("inputs/input_ang:0", Some [-1; 2]%Z)]
                  [Converter.output_tensor_name] "model_control/phase_train:0") 0%N)
   = inl (Exn "ValueError" "Invalid shape for input inputs/input_ang") /\
   refusals (trace (run (Fake.sys Fake.trained) (Fake.fw Fake.trained)
               (Converter.convert_tf_checkpoint_to_coreml
                  Converter.checkpoint_dir Converter.META_FILE
                  Converter.output_mlmodel_full_path
                  [("inputs/input_ang:0", Some [-1; 2]%Z)]
                  [Converter.output_tensor_name] "model_control/phase_train:0") 0%N))
   = [("inputs/input_ang", Some [-1; 2]%Z,
       Exn "ValueError" "Invalid shape for input inputs/input_ang")] /\
   In {| tt_name := "inputs/input_ang"; tt_shape := Some [-1; 2]%Z |}
      (Converter.coreml_inputs [("inputs/input_ang:0", Some [-1; 2]%Z)]
                               "model_control/phase_train:0"
       ++ Converter.coreml_outputs [Converter.output_tensor_name]) /\
   conversions (trace (run (Fake.sys Fake.trained) (Fake.fw Fake.trained)
               (Converter.convert_tf_checkpoint_to_coreml
                  Converter.checkpoint_dir Converter.META_FILE
                  Converter.output_mlmodel_full_path
                  [("inputs/input_ang:0", Some [-1; 2]%Z)]
                  [Converter.output_tensor_name] "model_control/phase_train:0") 0%N))
   = [] /\
   saved (trace (run (Fake.sys Fake.trained) (Fake.fw Fake.trained)
               (Converter.convert_tf_checkpoint_to_coreml
                  Converter.checkpoint_dir Converter.META_FILE
                  Converter.output_mlmodel_full_path
                  [("inputs/input_ang:0", Some [-1; 2]%Z)]
                  [Converter.output_tensor_name] "model_control/phase_train:0") 0%N))
   = [] /\
   exists data,
     written (trace (run (Fake.sys Fake.trained) (Fake.fw Fake.trained)
               (Converter.convert_tf_checkpoint_to_coreml
                  Converter.checkpoint_dir Converter.META_FILE
                  Converter.output_mlmodel_full_path
                  [("inputs/input_ang:0", Some [-1; 2]%Z)]
                  [Converter.output_tensor_name] "model_control/phase_train:0") 0%N))
     = [data]).
Proof.
  split; [left; reflexivity|].
  apply converter_refused_tensor_type. left. reflexivity.
Defined.

(** The Inspector's main block on a meta graph without variables. *)
Lemma inspector_missing_saver_reported_witness :
  (import_answers (trace (run (Fake.sys Fake.without_variables)
                              (Fake.fw Fake.without_variables)
                              (Inspector.main_with Inspector.checkpoint_base_dir
                                                   Inspector.meta_file) 0%N))
   = [inr None] /\
   lookups (trace (run (Fake.sys Fake.without_variables)
                       (Fake.fw Fake.without_variables)
                       (Inspector.main_with Inspector.checkpoint_base_dir
                                            Inspector.meta_file) 0%N))
   = [inr (Some "OriginalModel/R/R")] /\
   "OriginalModel/R/R" <> EmptyString) /\
  (outcome (run (Fake.sys Fake.without_variables) (Fake.fw Fake.without_variables)
                (Inspector.main_with Inspector.checkpoint_base_dir
                                     Inspector.meta_file) 0%N) = inr tt /\
   stdout (trace (run (Fake.sys Fake.without_variables) (Fake.fw Fake.without_variables)
                      (Inspector.main_with Inspector.checkpoint_base_dir
                                           Inspector.meta_file) 0%N))
   = [[Lit "Restoring weights from: "; Str "OriginalModel/R/R"];
      [Lit "An error occurred during model inspection: ";
       Err (AttributeError "'NoneType' object has no attribute 'restore'")]] /\
   listings (trace (run (Fake.sys Fake.without_variables) (Fake.fw Fake.without_variables)
                        (Inspector.main_with Inspector.checkpoint_base_dir
                                             Inspector.meta_file) 0%N)) = [] /\
   exists pre,
     trace (run (Fake.sys Fake.without_variables) (Fake.fw Fake.without_variables)
                (Inspector.main_with Inspector.checkpoint_base_dir
                                     Inspector.meta_file) 0%N)
     = pre ++ [Did (Print [Lit "An error occurred during model inspection: ";
                           Err (AttributeError "'NoneType' object has no attribute 'restore'")]) tt;
               Did (PrintExc (AttributeError "'NoneType' object has no attribute 'restore'")) tt]).
Proof.
  split; [repeat split; discriminate|].
  apply inspector_missing_saver_reported; [reflexivity|reflexivity|discriminate].
Defined.
